(** * Gas Town mail: addressing, routing, delivery modes and the wait poller

    A shallow embedding of [internal/cmd/mail.go] (package [cmd]) and of the
    router of package [mail] (Send, GetMailbox, notifyRecipient,
    interruptRecipient, addressToSessionID), with the properties of the
    design document proved over it.

    Go strings are byte strings: [string].  An [error] is [option string]
    ([None] is Go's [nil], [Some txt] an error whose text is [txt]).  The
    external collaborators (the [bd] executable, tmux, the mailbox queries, the
    clock, the random source, the process environment) are ports: operations
    on an abstract world state [W]; every port call is recorded in a trace. *)

From Stdlib Require Import Strings.Byte String Ascii ZArith List Bool DecimalString Lia.
From stdpp Require Import gmap strings list fin_maps.
Import ListNotations.

Local Open Scope string_scope.

(** Let [simpl] and [cbn] compute the concatenation of string literals. *)
#[local] Arguments String.append !s1 s2 : simpl nomatch.

(** ** Go's [strings] package, as far as the sources use it *)
Module gostrings.

(** [strings.HasPrefix(s, prefix)]. *)
Fixpoint HasPrefix (s prefix : string) {struct prefix} : bool :=
  match prefix with
  | EmptyString => true
  | String p prefix' =>
      match s with
      | EmptyString => false
      | String c s' => if Ascii.eqb c p then HasPrefix s' prefix' else false
      end
  end.

(** The bytes of [s] from offset [n] on: Go's [s[n:]]. *)
Fixpoint from (n : nat) (s : string) : string :=
  match n, s with
  | O, _ => s
  | S _, EmptyString => EmptyString
  | S n', String _ s' => from n' s'
  end.

(** [strings.Cut(s, sep)]: the text before and after the first instance of
    [sep], or [None] when [sep] does not occur. *)
Fixpoint Cut (s sep : string) : option (string * string) :=
  if HasPrefix s sep then Some (EmptyString, from (String.length sep) s)
  else match s with
       | EmptyString => None
       | String c s' =>
           match Cut s' sep with
           | Some (before, after) => Some (String c before, after)
           | None => None
           end
       end.

(** [strings.SplitN(s, sep, n)] for a non-empty [sep] and [n >= 0]: at most
    [n] substrings, the last one being the unsplit remainder. *)
Fixpoint SplitN (s sep : string) (n : nat) : list string :=
  match n with
  | O => []
  | S O => [s]
  | S n' =>
      match Cut s sep with
      | None => [s]
      | Some (before, after) => before :: SplitN after sep n'
      end
  end.

(** The separator of addresses, as a byte. *)
Definition slash : ascii := "/"%char.

(** Does the byte [c] occur in [s]? *)
Fixpoint occurs (c : ascii) (s : string) : bool :=
  match s with
  | EmptyString => false
  | String d s' => Ascii.eqb d c || occurs c s'
  end.

(** The UTF-8 encodings of the code points Go's [unicode.IsSpace] accepts:
    tab, newline, vertical tab, form feed, carriage return, space, U+0085,
    U+00A0, U+1680, U+2000 to U+200A, U+2028, U+2029, U+202F, U+205F and
    U+3000. *)
Definition bytes (l : list nat) : string :=
  string_of_list_ascii (List.map ascii_of_nat l).

Definition spaces : list string :=
  List.map bytes
    ([[9]; [10]; [11]; [12]; [13]; [32]; [194; 133]; [194; 160];
      [225; 154; 128]] ++
     List.map (fun k => [226; 128; 128 + k]) (seq 0 11) ++
     [[226; 128; 168]; [226; 128; 169]; [226; 128; 175]; [226; 129; 159];
      [227; 128; 128]]).

Definition rev (s : string) : string :=
  string_of_list_ascii (List.rev (list_ascii_of_string s)).

(** Drop one leading instance of the first of [seps] that [s] starts with. *)
Fixpoint dropOne (seps : list string) (s : string) : option string :=
  match seps with
  | [] => None
  | sep :: seps' =>
      if HasPrefix s sep then Some (from (String.length sep) s)
      else dropOne seps' s
  end.

Fixpoint trimLeft (fuel : nat) (seps : list string) (s : string) : string :=
  match fuel with
  | O => s
  | S fuel' =>
      match dropOne seps s with
      | Some s' => trimLeft fuel' seps s'
      | None => s
      end
  end.

(** [strings.TrimSpace(s)]: leading and trailing white space removed. *)
Definition TrimSpace (s : string) : string :=
  let s1 := trimLeft (String.length s) spaces s in
  rev (trimLeft (String.length s1) (List.map rev spaces) (rev s1)).

End gostrings.

(** ** Go's [encoding/hex] *)
Module hex.

Definition hextable : string := "0123456789abcdef".

Definition digit (n : N) : ascii :=
  match String.get (N.to_nat n) hextable with
  | Some c => c
  | None => "0"%char
  end.

(** [hex.EncodeToString(src)]: two digits per byte, high nibble first. *)
Fixpoint EncodeToString (src : list byte) : string :=
  match src with
  | [] => EmptyString
  | v :: rest =>
      String (digit (N.shiftr (Byte.to_N v) 4))
        (String (digit (N.land (Byte.to_N v) 15)) (EncodeToString rest))
  end.






End hex.

(** ** Errors, results, the trace and the command monad *)

Definition error := option string.
Definition nil_error : error := None.

Inductive result (A : Type) :=
| Ok (a : A)
| Err (e : string).
Arguments Ok {A} a.
Arguments Err {A} e.

(** One entry per call that leaves the process. *)
Inductive Event :=
| EvExec (name : string) (args : list string) (env dir : string)
| EvHasSession (session : string)
| EvDisplayMessage (session text : string)
| EvSendKeysRaw (session text : string)
| EvMailboxGet (identity id : string)
| EvMailboxCount (identity : string)
| EvNow
| EvSleep (d : Z)
| EvRandRead (n : nat)
| EvFindBeadsWorkDir
| EvDetectSender
| EvExit (code : Z).

(** The calls that reach a live session. *)
Definition isSessionEvent (ev : Event) : bool :=
  match ev with
  | EvHasSession _ | EvDisplayMessage _ _ | EvSendKeysRaw _ _ => true
  | _ => false
  end.

(** The calls that change what a live session shows. *)
Definition isSideEffect (ev : Event) : bool :=
  match ev with
  | EvDisplayMessage _ _ | EvSendKeysRaw _ _ => true
  | _ => false
  end.

Definition isSome {A} (o : option A) : bool :=
  match o with Some _ => true | None => false end.

Record St (W : Type) := mkSt { world : W; trace : list Event }.
Arguments mkSt {W} world trace.
Arguments world {W} s.
Arguments trace {W} s.

Definition M (W A : Type) : Type := St W -> A * St W.

Definition ret {W A} (a : A) : M W A := fun st => (a, st).

Definition bind {W A B} (c : M W A) (k : A -> M W B) : M W B :=
  fun st => let (a, st') := c st in k a st'.

(** A port call: run [op] on the world and append [ev] to the trace. *)
Definition call {W A} (ev : Event) (op : W -> A * W) : M W A :=
  fun st =>
    let (a, w') := op (world st) in
    (a, mkSt w' (trace st ++ [ev])%list).

Notation "x <- c ;; k" := (bind c (fun x => k))
  (at level 100, c at next level, right associativity).
Notation "c ;;; k" := (bind c (fun _ => k))
  (at level 100, right associativity).

(** The line feed, Go's ["\n"]. *)
Definition newline : ascii := ascii_of_nat 10.
Definition nl : string := String newline EmptyString.

(** [fmt.Sprintf("%d", z)]. *)
Definition Sprintf_d (z : Z) : string := NilZero.string_of_int (Z.to_int z).

(** ** Package [mail]: the message model and the router *)
Module mail.

(** [type Priority string], [type MessageType string] and
    [type Delivery string]; the code compares a message type with the empty
    string, so the three are kept as Go strings. *)
Definition Priority := string.
Definition MessageType := string.
Definition Delivery := string.

(** Modelled from the spec: the constants of package [mail] (declared in a
    file that is not among the sources), with the names the design gives the
    members of the three enumerations. *)
Definition PriorityLow : Priority := "low".
Definition PriorityNormal : Priority := "normal".
Definition PriorityHigh : Priority := "high".
Definition PriorityUrgent : Priority := "urgent".

Definition TypeTask : MessageType := "task".
Definition TypeScavenge : MessageType := "scavenge".
Definition TypeNotification : MessageType := "notification".
Definition TypeReply : MessageType := "reply".

Definition DeliveryQueue : Delivery := "queue".
Definition DeliveryInterrupt : Delivery := "interrupt".

(** [mail.Message]; [From] and [Type] are reserved words here, hence the
    underscores.  The timestamp plays no part in routing and is left out. *)
Record Message := mkMessage {
  ID : string;
  From_ : string;
  To : string;
  Subject : string;
  Body : string;
  Priority_ : Priority;
  Type_ : MessageType;
  Delivery_ : Delivery;
  ThreadID : string;
  ReplyTo : string;
  Read : bool
}.

(** Go's [&mail.Message{From: .., To: .., Subject: .., Body: ..}]: every
    other field holds its zero value. *)
Definition newMessage (from to subject body : string) : Message :=
  mkMessage "" from to subject body "" "" "" "" "" false.

Definition setPriority (m : Message) (p : Priority) : Message :=
  mkMessage (ID m) (From_ m) (To m) (Subject m) (Body m) p (Type_ m)
    (Delivery_ m) (ThreadID m) (ReplyTo m) (Read m).

Definition setType (m : Message) (t : MessageType) : Message :=
  mkMessage (ID m) (From_ m) (To m) (Subject m) (Body m) (Priority_ m) t
    (Delivery_ m) (ThreadID m) (ReplyTo m) (Read m).

Definition setDelivery (m : Message) (d : Delivery) : Message :=
  mkMessage (ID m) (From_ m) (To m) (Subject m) (Body m) (Priority_ m)
    (Type_ m) d (ThreadID m) (ReplyTo m) (Read m).

Definition setThreadID (m : Message) (t : string) : Message :=
  mkMessage (ID m) (From_ m) (To m) (Subject m) (Body m) (Priority_ m)
    (Type_ m) (Delivery_ m) t (ReplyTo m) (Read m).

Definition setReplyTo (m : Message) (r : string) : Message :=
  mkMessage (ID m) (From_ m) (To m) (Subject m) (Body m) (Priority_ m)
    (Type_ m) (Delivery_ m) (ThreadID m) r (Read m).

(** Modelled from the spec: [mail.Mailbox], a façade scoped to one resolved
    durable identity and reached through the working directory of the
    store. *)
Record Mailbox := mkMailbox { identity : string; mailboxDir : string }.

(** [mail.Router]; the tmux handle carries no state. *)
Record Router := mkRouter { workDir : string }.

Definition NewRouter (workDir : string) : Router := mkRouter workDir.

(** The functions of package [mail] that the sources call but do not
    contain.  They return plain values in Go too (no error result). *)
Class Pkg := {
  addressToIdentity : string -> string;
  PriorityToBeads : Priority -> Z;
  ParsePriority : string -> Priority;
  ParseMessageType : string -> MessageType
}.

(** The external collaborators, as operations on the world [W]. *)
Class Ports (W : Type) := {
  (** [exec.Command(name, args...)] run with one more environment entry in
      directory [dir]: the error of [Run] and what was written to stderr. *)
  exec_Run : string -> list string -> string -> string -> W -> (error * string) * W;
  tmux_HasSession : string -> W -> (bool * error) * W;
  tmux_DisplayMessageDefault : string -> string -> W -> error * W;
  tmux_SendKeysRaw : string -> string -> W -> error * W;
  Mailbox_Get : Mailbox -> string -> W -> result Message * W;
  (** [Count]: total and unread. *)
  Mailbox_Count : Mailbox -> W -> result (Z * Z) * W;
  (** [time.Now()], in nanoseconds. *)
  time_Now : W -> Z * W;
  time_Sleep : Z -> W -> unit * W;
  (** [rand.Read(b)] for a buffer of [n] bytes: the bytes written. *)
  rand_Read : nat -> W -> list byte * W;
  findBeadsWorkDir : W -> (string * error) * W;
  detectSender : W -> string * W
}.

Section Router.
Context {W : Type} `{Ports W} `{Pkg}.

(** Modelled from the spec: [NewMailboxFromAddress], which resolves the
    address to its durable identity. *)
Definition NewMailboxFromAddress (address workDir : string) : Mailbox :=
  mkMailbox (addressToIdentity address) workDir.

(** [addressToSessionID] converts a mail address to a tmux session ID. *)
Definition addressToSessionID (address : string) : string :=
  if gostrings.HasPrefix address "mayor" then "gt-mayor"
  else
    let parts := gostrings.SplitN address "/" 2 in
    match parts with
    | [rig; target] =>
        if target =? "" then ""
        else "gt-" ++ rig ++ "-" ++ target
    | _ => ""
    end.

(** The text [notifyRecipient] shows in the status line. *)
Definition notification (msg : Message) : string :=
  "[MAIL] From " ++ From_ msg ++ ": " ++ Subject msg.

(** [Router.notifyRecipient]. *)
Definition notifyRecipient (r : Router) (msg : Message) : M W error :=
  let sessionID := addressToSessionID (To msg) in
  if sessionID =? "" then ret nil_error
  else
    hs <- call (EvHasSession sessionID) (tmux_HasSession sessionID) ;;
    let '(hasSession, err) := hs in
    if isSome err || negb hasSession
    then ret nil_error
    else
      call (EvDisplayMessage sessionID (notification msg))
        (tmux_DisplayMessageDefault sessionID (notification msg)).

(** The annotation of [interruptRecipient]. *)
Definition priorityStr (p : Priority) : string :=
  if p =? PriorityUrgent then " [URGENT]"
  else if p =? PriorityHigh then " [HIGH PRIORITY]"
  else "".

(** The text [interruptRecipient] builds; the nine bytes before "NEW MAIL"
    are those of the source file. *)
Definition reminder (msg : Message) : string :=
  let reminder :=
    nl ++ "<system-reminder>" ++ nl ++ "ðŸ“¬ NEW MAIL"
      ++ priorityStr (Priority_ msg) ++ " from " ++ From_ msg ++ nl
      ++ "Subject: " ++ Subject msg ++ nl in
  let reminder :=
    if negb (Body msg =? "") then reminder ++ (nl ++ Body msg ++ nl)
    else reminder in
  reminder ++ (nl ++ "Run 'gt mail inbox' to see your messages." ++ nl
                 ++ "</system-reminder>" ++ nl).

(** [Router.interruptRecipient]. *)
Definition interruptRecipient (r : Router) (msg : Message) : M W error :=
  let sessionID := addressToSessionID (To msg) in
  if sessionID =? "" then ret nil_error
  else
    hs <- call (EvHasSession sessionID) (tmux_HasSession sessionID) ;;
    let '(hasSession, err) := hs in
    if isSome err || negb hasSession
    then ret nil_error
    else
      call (EvSendKeysRaw sessionID (reminder msg))
        (tmux_SendKeysRaw sessionID (reminder msg)).

(** The arguments [Send] passes to [bd]. *)
Definition sendArgs (msg : Message) : list string :=
  let toIdentity := addressToIdentity (To msg) in
  let args := ["mail"; "send"; toIdentity; "-s"; Subject msg; "-m"; Body msg] in
  let beadsPriority := PriorityToBeads (Priority_ msg) in
  let args := (args ++ ["--priority"; Sprintf_d beadsPriority])%list in
  let args :=
    if negb (Type_ msg =? "") && negb (Type_ msg =? TypeNotification)
    then (args ++ ["--type"; Type_ msg])%list else args in
  let args :=
    if negb (ThreadID msg =? "")
    then (args ++ ["--thread-id"; ThreadID msg])%list
    else args in
  if negb (ReplyTo msg =? "") then (args ++ ["--reply-to"; ReplyTo msg])%list
  else args.

(** The call of [bd] that persists [msg]. *)
Definition persist (r : Router) (msg : Message) : M W (error * string) :=
  let fromIdentity := addressToIdentity (From_ msg) in
  let env := "BEADS_AGENT_NAME=" ++ fromIdentity in
  call (EvExec "bd" (sendArgs msg) env (workDir r))
    (exec_Run "bd" (sendArgs msg) env (workDir r)).

(** "Handle delivery based on mode": the last step of [Send]. *)
Definition deliver (r : Router) (msg : Message) : M W error :=
  if Delivery_ msg =? DeliveryInterrupt
  then interruptRecipient r msg
  else notifyRecipient r msg.

(** [Router.Send]. *)
Definition Send (r : Router) (msg : Message) : M W error :=
  run <- persist r msg ;;
  let '(err, stderr) := run in
  match err with
  | Some e =>
      let errMsg := gostrings.TrimSpace stderr in
      if negb (errMsg =? "") then ret (Some errMsg)
      else ret (Some ("sending message: " ++ e))
  | None =>
      deliver r msg ;;;
      ret nil_error
  end.

(** [Router.GetMailbox]. *)
Definition GetMailbox (r : Router) (address : string) : Mailbox * error :=
  (NewMailboxFromAddress address (workDir r), nil_error).

End Router.

End mail.

(** ** Package [cmd]: the [gt mail] commands *)
Module cmd.
Import mail.

(** The flags of [gt mail send].  [init] registers the defaults: priority
    "normal", type "notification", everything else empty or false. *)
Record SendFlags := mkSendFlags {
  mailSubject : string;
  mailBody : string;
  mailPriority : string;
  mailType : string;
  mailReplyTo : string;
  mailNotify : bool;
  mailInterrupt : bool
}.

(** [time.Second] in nanoseconds, and a 64-bit signed product. *)
Definition Second : Z := 1000000000.

Definition wrap64 (z : Z) : Z := (z + 2 ^ 63) mod 2 ^ 64 - 2 ^ 63.

(** [pollInterval := 5 * time.Second]. *)
Definition pollInterval : Z := 5 * Second.

(** What a buffer holds after [written] was copied into its start. *)
Definition fill (buf written : list byte) : list byte :=
  firstn (List.length buf) (written ++ skipn (List.length written) buf).

Section Commands.
Context {W : Type} `{Ports W} `{Pkg}.

(** [generateThreadID] creates a random thread ID for new message threads. *)
Definition generateThreadID : M W string :=
  let b := repeat x00 6 in
  written <- call (EvRandRead 6) (rand_Read 6) ;;
  let b := fill b written in
  ret ("thread-" ++ hex.EncodeToString b).

(** [runMailSend], from "Create message" to "Generate thread ID for new
    threads": the message handed to the router. *)
Definition buildMessage (f : SendFlags) (workDir from to : string) : M W Message :=
  let msg := newMessage from to (mailSubject f) (mailBody f) in
  let msg := setPriority msg (ParsePriority (mailPriority f)) in
  let msg :=
    if mailNotify f && (Priority_ msg =? PriorityNormal)
    then setPriority msg PriorityHigh else msg in
  let msg :=
    if mailInterrupt f then setDelivery msg DeliveryInterrupt
    else setDelivery msg DeliveryQueue in
  let msg := setType msg (ParseMessageType (mailType f)) in
  msg <-
    (if negb (mailReplyTo f =? "") then
       let msg := setReplyTo msg (mailReplyTo f) in
       let msg :=
         if Type_ msg =? TypeNotification then setType msg TypeReply
         else msg in
       let router := NewRouter workDir in
       let '(mailbox, err) := GetMailbox router from in
       match err with
       | None =>
           got <- call (EvMailboxGet (identity mailbox) (mailReplyTo f))
                    (Mailbox_Get mailbox (mailReplyTo f)) ;;
           match got with
           | Ok original => ret (setThreadID msg (ThreadID original))
           | Err _ => ret msg
           end
       | Some _ => ret msg
       end
     else ret msg) ;;
  if ThreadID msg =? "" then
    tid <- generateThreadID ;;
    ret (setThreadID msg tid)
  else ret msg.

(** [runMailSend]; [to] is the one positional argument. *)
Definition runMailSend (f : SendFlags) (to : string) : M W error :=
  found <- call EvFindBeadsWorkDir findBeadsWorkDir ;;
  let '(workDir, err) := found in
  match err with
  | Some e => ret (Some ("not in a Gas Town workspace: " ++ e))
  | None =>
      from <- call EvDetectSender detectSender ;;
      msg <- buildMessage f workDir from to ;;
      let router := NewRouter workDir in
      err <- Send router msg ;;
      match err with
      | Some e => ret (Some ("sending message: " ++ e))
      | None => ret nil_error
      end
  end.

(** [os.Exit(code)]: the process ends with [code]. *)
Definition os_Exit (code : Z) : M W (option Z) :=
  fun st => (Some code, mkSt (world st) (trace st ++ [EvExit code])).

(** One pass through the body of the [for] loop of [runMailWait]:
    [Some code] when the process exits, [None] when it slept and the loop
    goes round again. *)
Definition pollOnce (mailbox : Mailbox) (mailWaitTimeout deadline : Z) : M W (option Z) :=
  counted <- call (EvMailboxCount (identity mailbox)) (Mailbox_Count mailbox) ;;
  match counted with
  | Err _ => os_Exit 2
  | Ok (_, unread) =>
      if (unread >? 0)%Z then os_Exit 0
      else
        expired <-
          (if (mailWaitTimeout >? 0)%Z then
             now <- call EvNow time_Now ;;
             ret (now >? deadline)%Z
           else ret false) ;;
        if expired then os_Exit 1
        else
          call (EvSleep pollInterval) (time_Sleep pollInterval) ;;;
          ret None
  end.

(** The [for] loop, unrolled [fuel] times; [None] when the process is still
    waiting after [fuel] polls. *)
Fixpoint waitLoop (fuel : nat) (mailbox : Mailbox) (mailWaitTimeout deadline : Z) : M W (option Z) :=
  match fuel with
  | O => ret None
  | S fuel' =>
      r <- pollOnce mailbox mailWaitTimeout deadline ;;
      match r with
      | Some code => ret (Some code)
      | None => waitLoop fuel' mailbox mailWaitTimeout deadline
      end
  end.

(** The state after [k] polls that all ended in a sleep; [None] if one of
    them ended the process. *)
Fixpoint afterPolls (k : nat) (mailbox : Mailbox) (mailWaitTimeout deadline : Z) (st : St W) : option (St W) :=
  match k with
  | O => Some st
  | S k' =>
      match pollOnce mailbox mailWaitTimeout deadline st with
      | (None, st') => afterPolls k' mailbox mailWaitTimeout deadline st'
      | (Some _, _) => None
      end
  end.

(** [runMailWait]. *)
Definition runMailWait (mailWaitTimeout : Z) (fuel : nat) : M W (option Z) :=
  found <- call EvFindBeadsWorkDir findBeadsWorkDir ;;
  let '(workDir, err) := found in
  match err with
  | Some _ => os_Exit 2
  | None =>
      address <- call EvDetectSender detectSender ;;
      let router := NewRouter workDir in
      let '(mailbox, err) := GetMailbox router address in
      match err with
      | Some _ => os_Exit 2
      | None =>
          deadline <-
            (if (mailWaitTimeout >? 0)%Z then
               now <- call EvNow time_Now ;;
               ret (now + wrap64 (mailWaitTimeout * Second))%Z
             else ret 0%Z) ;;
          waitLoop fuel mailbox mailWaitTimeout deadline
      end
  end.

End Commands.

(** The terminal states of the wait poller and their exit codes, as the help
    text of [gt mail wait] lists them. *)
Inductive Outcome := MailArrived | TimedOut | Errored.

Definition exitCode (o : Outcome) : Z :=
  match o with
  | MailArrived => 0
  | TimedOut => 1
  | Errored => 2
  end.

End cmd.

(** ** Package [session]: the prefix registry *)
Module session.

(** Modelled from the spec: the reserved management prefix. *)
Definition HQPrefix : string := "hq-".

(** Modelled from the spec: the registry of package [session], of which the
    sources hold only the tests: pairs of a short prefix and a canonical rig
    name, kept in both directions. *)
Record PrefixRegistry := mkRegistry {
  prefixToRig : gmap string string;
  rigToPrefix : gmap string string
}.

(** Modelled from the spec: [NewPrefixRegistry], an empty registry. *)
Definition NewPrefixRegistry : PrefixRegistry := mkRegistry ∅ ∅.

(** Modelled from the spec: [Register] adds or overwrites one pair. *)
Definition Register (r : PrefixRegistry) (prefix rigName : string) : PrefixRegistry :=
  mkRegistry (<[prefix := rigName]> (prefixToRig r))
             (<[rigName := prefix]> (rigToPrefix r)).

(** Modelled from the spec: the process-wide holder of the registry in
    force, read by [DefaultRegistry] and replaced whole by
    [SetDefaultRegistry]. *)
Record Process := mkProcess { defaultRegistry : PrefixRegistry }.

Definition DefaultRegistry (p : Process) : PrefixRegistry := defaultRegistry p.

Definition SetDefaultRegistry (r : PrefixRegistry) (p : Process) : Process :=
  mkProcess r.

(** Modelled from the spec: does [name] start with a registered prefix
    followed by a dash? *)
Definition matchesPrefix (r : PrefixRegistry) (name : string) : bool :=
  existsb (fun p => gostrings.HasPrefix name (p ++ "-"))
    (List.map fst (map_to_list (prefixToRig r))).

(** Modelled from the spec: [IsKnownSession], true for every name with the
    management prefix, and otherwise exactly for the names whose leading
    prefix is registered for some rig. *)
Definition IsKnownSession (p : Process) (name : string) : bool :=
  if gostrings.HasPrefix name HQPrefix then true
  else matchesPrefix (DefaultRegistry p) name.

End session.

(** ** A scripted world, to run the commands on concrete inputs *)
Module script.
Import mail.

(** Modelled from the spec: the parsers of package [mail] map the name of a
    member of the enumeration to that member and anything else to the
    default; the durable identity is the address passed through.  The design
    does not fix the priority codes of the store; the ones below only let the
    examples run. *)
Definition parsePriority (s : string) : Priority :=
  if s =? "low" then PriorityLow
  else if s =? "high" then PriorityHigh
  else if s =? "urgent" then PriorityUrgent
  else PriorityNormal.

Definition parseMessageType (s : string) : MessageType :=
  if s =? "task" then TypeTask
  else if s =? "scavenge" then TypeScavenge
  else if s =? "reply" then TypeReply
  else TypeNotification.

Definition priorityCode (p : Priority) : Z :=
  if p =? PriorityUrgent then 0
  else if p =? PriorityHigh then 1
  else if p =? PriorityLow then 3
  else 2.

#[global] Instance pkg : Pkg := {
  addressToIdentity := fun address => address;
  PriorityToBeads := priorityCode;
  ParsePriority := parsePriority;
  ParseMessageType := parseMessageType
}.

(** What the collaborators will answer. *)
Record World := mkWorld {
  bdResult : error * string;
  sessionResult : bool * error;
  displayResult : error;
  sendKeysResult : error;
  stored : list Message;
  counts : list (result (Z * Z));
  clock : Z;
  entropy : list byte;
  workDirResult : string * error;
  sender : string
}.

Definition lookup (id : string) (w : World) : result Message :=
  match find (fun m => ID m =? id) (stored w) with
  | Some m => Ok m
  | None => Err ("message not found: " ++ id)
  end.

Definition nextCount (w : World) : result (Z * Z) * World :=
  match counts w with
  | [] => (Ok (0, 0)%Z, w)
  | c :: rest =>
      (c, mkWorld (bdResult w) (sessionResult w) (displayResult w)
            (sendKeysResult w) (stored w) rest (clock w) (entropy w)
            (workDirResult w) (sender w))
  end.

Definition sleep (d : Z) (w : World) : unit * World :=
  (tt, mkWorld (bdResult w) (sessionResult w) (displayResult w)
         (sendKeysResult w) (stored w) (counts w) (clock w + d) (entropy w)
         (workDirResult w) (sender w)).

Definition random (n : nat) (w : World) : list byte * World :=
  (firstn n (entropy w),
   mkWorld (bdResult w) (sessionResult w) (displayResult w)
     (sendKeysResult w) (stored w) (counts w) (clock w) (skipn n (entropy w))
     (workDirResult w) (sender w)).

#[global] Instance ports : Ports World := {
  exec_Run := fun _ _ _ _ w => (bdResult w, w);
  tmux_HasSession := fun _ w => (sessionResult w, w);
  tmux_DisplayMessageDefault := fun _ _ w => (displayResult w, w);
  tmux_SendKeysRaw := fun _ _ w => (sendKeysResult w, w);
  Mailbox_Get := fun _ id w => (lookup id w, w);
  Mailbox_Count := fun _ w => nextCount w;
  time_Now := fun w => (clock w, w);
  time_Sleep := sleep;
  rand_Read := random;
  findBeadsWorkDir := fun w => (workDirResult w, w);
  detectSender := fun w => (sender w, w)
}.

(** A healthy world: the store accepts, a session is up, the mailbox of the
    sender holds [stored]. *)
Definition healthy (stored : list Message) : World :=
  mkWorld (None, "") (true, None) None None stored [] 0
    [x01; x23; x45; x67; x89; xab; xcd; xef] ("/town", None) "mayor/".

Definition start (w : World) : St World := mkSt w [].

(** A message of an earlier thread, and one that was stored without a thread
    id (the router omits [--thread-id] when the field is empty). *)
Definition threaded : Message :=
  mkMessage "msg-1" "gastown/Toast" "mayor/" "Status" "" PriorityNormal
    TypeNotification DeliveryQueue "thread-0123456789ab" "" false.


(** A mailbox that is empty at the first two polls and holds one unread
    message out of three at the third; one whose count cannot be read at the
    second poll. *)
Definition arriving : World :=
  mkWorld (None, "") (true, None) None None []
    [Ok (0, 0)%Z; Ok (2, 0)%Z; Ok (3, 1)%Z] 0 [] ("/town", None) "mayor/".




(** An urgent interrupt and a plain queued notification for a polecat. *)
Definition nudge : Message :=
  mkMessage "" "mayor/" "gastown/Toast" "STUCK?" "Nudge" PriorityUrgent
    TypeNotification DeliveryInterrupt "thread-0123456789ab" "" false.

Definition note : Message :=
  mkMessage "" "mayor/" "gastown/Toast" "Status check" "How is it going?"
    PriorityNormal TypeNotification DeliveryQueue "thread-0123456789ab" ""
    false.

(** A world whose store rejects the message, and one whose session ports
    all fail. *)
Definition rejecting : World :=
  mkWorld (Some "exit status 1", "Error: database is locked") (true, None)
    None None [] [] 0 [] ("/town", None) "mayor/".

Definition flaky : World :=
  mkWorld (None, "") (true, None) (Some "no server running")
    (Some "no server running") [] [] 0 [] ("/town", None) "mayor/".

End script.

(** ** More of Go's [strings], and [path/filepath] on a Unix system *)
Module paths.
Import gostrings.

(** [strings.Contains(s, substr)]. *)
Definition Contains (s substr : string) : bool := isSome (Cut s substr).

(** [strings.Split(s, sep)] for a non-empty [sep]: all the pieces.  Go
    computes their number first; there are at most [len(s) + 1]. *)
Definition Split (s sep : string) : list string :=
  SplitN s sep (S (String.length s)).

(** The pieces of a path between its slashes, empty ones included. *)
Fixpoint fields (path : string) : list string :=
  match path with
  | EmptyString => [EmptyString]
  | String c rest =>
      if Ascii.eqb c slash then EmptyString :: fields rest
      else match fields rest with
           | first :: others => String c first :: others
           | [] => [String c EmptyString]
           end
  end.

(** One element of the path read by [Clean]; [out] holds the elements kept
    so far, last one first.  Empty elements and "." are dropped; ".." removes
    the last element kept, is dropped at the root, and is kept in front of a
    relative path. *)
Definition cleanStep (rooted : bool) (out : list string) (elem : string) : list string :=
  if elem =? "" then out
  else if elem =? "." then out
  else if elem =? ".." then
    match out with
    | top :: below =>
        if top =? ".." then ".." :: out else below
    | [] => if rooted then [] else [".."]
    end
  else elem :: out.

(** [filepath.Clean(path)]. *)
Definition Clean (path : string) : string :=
  if path =? "" then "."
  else
    let rooted := HasPrefix path "/" in
    let out := fold_left (cleanStep rooted) (fields path) [] in
    let body := String.concat "/" (List.rev out) in
    if rooted then "/" ++ body
    else if body =? "" then "." else body.

(** [path[:i+1]] for the last slash [i] of [path]; empty without a slash. *)
Fixpoint upToLastSlash (path : string) : string :=
  match path with
  | EmptyString => EmptyString
  | String c rest =>
      if occurs slash path then String c (upToLastSlash rest)
      else EmptyString
  end.

(** [filepath.Dir(path)]. *)
Definition Dir (path : string) : string := Clean (upToLastSlash path).

(** [filepath.Join(a, b)]. *)
Definition Join (a b : string) : string :=
  if negb (a =? "") then Clean (a ++ "/" ++ b)
  else if negb (b =? "") then Clean b
  else "".

(** Measures for the proofs: the bytes a list of elements takes with one
    slash each, the same for its non-empty elements only, and a rank that
    every step to a different parent directory lowers. *)
Definition weight (l : list string) : nat :=
  list_sum (List.map (fun e => S (String.length e)) l).

Definition solid (l : list string) : nat :=
  weight (List.filter (fun e => negb (e =? "")) l).

Definition rank (path : string) : nat :=
  if (path =? ".") || (path =? "/") then 0 else S (String.length path).

(** [path] without its trailing slashes. *)
Fixpoint stripSlashes (path : string) : string :=
  match path with
  | EmptyString => EmptyString
  | String c rest =>
      let kept := stripSlashes rest in
      if (kept =? "") && Ascii.eqb c slash then EmptyString
      else String c kept
  end.

(** [filepath.Base(path)]. *)
Definition Base (path : string) : string :=
  if path =? "" then "."
  else
    let last := List.last (fields (stripSlashes path)) "" in
    if last =? "" then "/" else last.

End paths.

(** ** Package [cmd]: where the command runs *)
Module host.
Import gostrings paths.

(** What the process can see of its surroundings: the environment, the
    working directory, which paths exist, and the town root the workspace
    package finds from the working directory. *)
Record Host := mkHost {
  Getenv : string -> string;
  Getwd : result string;
  Stat : string -> error;
  FindFromCwdOrError : result string
}.

(** The address read off a directory below [marker]: the name of the
    directory above the marker, and the first element below it. *)
Definition addressBelow (cwd marker : string) : option string :=
  if Contains cwd marker then
    let parts := Split cwd marker in
    if (2 <=? List.length parts)%nat then
      let rigPath := nth 0 parts "" in
      let polecatPath := nth 0 (Split (nth 1 parts "") "/") "" in
      let rigName := Base rigPath in
      Some (rigName ++ "/" ++ polecatPath)
    else None
  else None.

(** [detectSender] determines the current context's address. *)
Definition detectSender (h : Host) : string :=
  let rig := Getenv h "GT_RIG" in
  let polecat := Getenv h "GT_POLECAT" in
  if negb (rig =? "") && negb (polecat =? "") then rig ++ "/" ++ polecat
  else
    match Getwd h with
    | Err _ => "mayor/"
    | Ok cwd =>
        match addressBelow cwd "/polecats/" with
        | Some address => address
        | None =>
            match addressBelow cwd "/crew/" with
            | Some address => address
            | None => "mayor/"
            end
        end
    end.

(** The loop of [findBeadsWorkDir], at most [fuel] directories up. *)
Fixpoint walkUp (fuel : nat) (h : Host) (path : string) : option (result string) :=
  match fuel with
  | O => None
  | S fuel' =>
      if negb (isSome (Stat h (Join path ".beads"))) then Some (Ok path)
      else
        let parent := Dir path in
        if parent =? path then Some (Err "no .beads directory found")
        else walkUp fuel' h parent
  end.

(** [findBeadsWorkDir] finds a directory with a .beads database. *)
Definition findBeadsWorkDir (fuel : nat) (h : Host) : option (result string) :=
  let fromTown :=
    match FindFromCwdOrError h with
    | Ok townRoot =>
        if negb (isSome (Stat h (Join townRoot ".beads"))) then Some townRoot
        else None
    | Err _ => None
    end in
  match fromTown with
  | Some townRoot => Some (Ok townRoot)
  | None =>
      match Getwd h with
      | Err e => Some (Err e)
      | Ok cwd => walkUp fuel h cwd
      end
  end.

(** Fuel that always suffices for a walk from [cwd]. *)
Definition enough (cwd : string) : nat := String.length cwd + 2.

(** The directory [k] levels above [path]. *)
Definition ancestor (k : nat) (path : string) : string := Nat.iter k Dir path.

End host.

(** ** The commands that read the mailbox: output and further store calls *)
Module console.
Import mail.

(** What the commands hand to the JSON encoder on standard output. *)
Inductive Encodable :=
| JCheck (address : string) (unread : Z) (has_new : bool)
| JMessage (m : Message)
| JMessages (ms : list Message).

(** Everything a command does, in order: the port calls of the trace, the
    texts written to standard output, and the calls of the mailbox methods
    the router does not use. *)
Inductive Action :=
| Port (ev : Event)
| Print (text : string)
| Encode (v : Encodable)
| CallList (identity : string)
| CallListUnread (identity : string)
| CallListByThread (identity threadID : string)
| CallMarkRead (identity id : string)
| CallDelete (identity id : string)
| CallCount (identity : string).

(** How a command ends: it returns an error (or nil), or it calls
    [os.Exit]. *)
Inductive Ended :=
| Returned (err : error)
| Exited (code : Z).

Record Run (W : Type) := mkRun { inWorld : W; log : list Action }.
Arguments mkRun {W} inWorld log.
Arguments inWorld {W} r.
Arguments log {W} r.

Definition K (W A : Type) : Type := Run W -> A * Run W.

Definition retK {W A} (a : A) : K W A := fun r => (a, r).

Definition bindK {W A B} (c : K W A) (k : A -> K W B) : K W B :=
  fun r => let (a, r') := c r in k a r'.

Notation "x <~ c ;; k" := (bindK c (fun x => k))
  (at level 100, c at next level, right associativity).
Notation "c ;;~ k" := (bindK c (fun _ => k))
  (at level 100, right associativity).

(** A computation of the command monad, run here: its trace is appended to
    the log. *)
Definition liftM {W A} (c : M W A) : K W A :=
  fun r =>
    let (a, st') := c (mkSt (inWorld r) []) in
    (a, mkRun (world st') (log r ++ List.map Port (trace st'))).

(** A call of one of the further ports. *)
Definition act {W A} (a : Action) (op : W -> A * W) : K W A :=
  fun r =>
    let (x, w') := op (inWorld r) in
    (x, mkRun w' (log r ++ [a])).

(** [fmt.Print(text)]. *)
Definition print {W} (text : string) : K W unit :=
  fun r => (tt, mkRun (inWorld r) (log r ++ [Print text])).

(** [fmt.Println(text)]. *)
Definition println {W} (text : string) : K W unit := print (text ++ nl).

(** [os.Exit(code)]. *)
Definition exit {W} (code : Z) : K W Ended :=
  fun r => (Exited code, mkRun (inWorld r) (log r ++ [Port (EvExit code)])).

(** [for i, x := range l { body }], with [i] counted from [start]. *)
Fixpoint forEachFrom {W A} (start : nat) (l : list A) (body : nat -> A -> K W unit) : K W unit :=
  match l with
  | [] => retK tt
  | x :: rest => body start x ;;~ forEachFrom (S start) rest body
  end.

Definition forEach {W A} (l : list A) (body : A -> K W unit) : K W unit :=
  forEachFrom 0 l (fun _ x => body x).

(** The texts printed, and the store and encoder calls, of a log. *)
Definition printed (l : list Action) : list string :=
  flat_map (fun a => match a with Print text => [text] | _ => [] end) l.

Definition isOutput (a : Action) : bool :=
  match a with
  | Print _ | Encode _ => true
  | _ => false
  end.

(** The lines a loop prints when entry [x] at index [i] prints [lines i x]. *)
Fixpoint linesFrom {A} (start : nat) (l : list A) (lines : nat -> A -> list string) : list string :=
  match l with
  | [] => []
  | x :: rest => (lines start x ++ linesFrom (S start) rest lines)%list
  end.

(** The mailbox methods the commands use beyond [Get] and the checked
    [Count], with every result Go returns, and the JSON encoder. *)
Class Store (W : Type) := {
  Mailbox_List : Mailbox -> W -> (list Message * error) * W;
  Mailbox_ListUnread : Mailbox -> W -> (list Message * error) * W;
  Mailbox_ListByThread : Mailbox -> string -> W -> (list Message * error) * W;
  Mailbox_MarkRead : Mailbox -> string -> W -> error * W;
  Mailbox_Delete : Mailbox -> string -> W -> error * W;
  (** [Count] where its error is dropped and the two numbers are used. *)
  Mailbox_Counts : Mailbox -> W -> (Z * Z * error) * W;
  json_Encode : Encodable -> W -> error * W
}.

(** Package [style] and the time of a message in a given layout
    ([msg.Timestamp.Format(layout)]). *)
Class Style := {
  Bold : string -> string;
  Dim : string -> string;
  Format : Message -> string -> string
}.

(** The flags of [gt mail check]. *)
Record CheckFlags := mkCheckFlags {
  mailCheckInject : bool;
  mailCheckJSON : bool;
  mailCheckQuiet : bool
}.

Section Commands.
Context {W : Type} `{Ports W} `{Pkg} `{Store W} `{Style}.

(** The type and priority markers of the listings. *)
Definition typeMarker (msg : Message) : string :=
  if negb (Type_ msg =? "") && negb (Type_ msg =? TypeNotification)
  then " [" ++ Type_ msg ++ "]" else "".


(** [runMailCheck]. *)
Definition runMailCheck (f : CheckFlags) : K W Ended :=
  let silentMode := mailCheckInject f || mailCheckQuiet f in
  found <~ liftM (call EvFindBeadsWorkDir findBeadsWorkDir) ;;
  let '(workDir, err) := found in
  match err with
  | Some e =>
      if silentMode then retK (Returned nil_error)
      else retK (Returned (Some ("not in a Gas Town workspace: " ++ e)))
  | None =>
      address <~ liftM (call EvDetectSender detectSender) ;;
      let router := NewRouter workDir in
      let '(mailbox, err) := GetMailbox router address in
      match err with
      | Some e =>
          if silentMode then retK (Returned nil_error)
          else retK (Returned (Some ("getting mailbox: " ++ e)))
      | None =>
          counted <~ liftM (call (EvMailboxCount (identity mailbox))
                              (Mailbox_Count mailbox)) ;;
          match counted with
          | Err e =>
              if silentMode then retK (Returned nil_error)
              else retK (Returned (Some ("counting messages: " ++ e)))
          | Ok (_, unread) =>
              if mailCheckQuiet f then retK (Returned nil_error)
              else if mailCheckJSON f then
                let result := JCheck address unread (unread >? 0)%Z in
                err <~ act (Encode result) (json_Encode result) ;;
                retK (Returned err)
              else if mailCheckInject f then
                (if (unread >? 0)%Z then
                   listed <~ act (CallListUnread (identity mailbox))
                               (Mailbox_ListUnread mailbox) ;;
                   let '(messages, _) := listed in
                   let subjects :=
                     List.map
                       (fun msg => "- From " ++ From_ msg ++ ": " ++ Subject msg)
                       messages in
                   println "<system-reminder>" ;;~
                   print ("You have " ++ Sprintf_d unread
                            ++ " unread message(s) in your inbox." ++ nl ++ nl) ;;~
                   forEach subjects (fun s => println s) ;;~
                   println "" ;;~
                   println "Run 'gt mail inbox' to see your messages, or 'gt mail read <id>' for a specific message." ;;~
                   println "</system-reminder>"
                 else retK tt) ;;~
                retK (Returned nil_error)
              else if (unread >? 0)%Z then
                print (Bold "📬" ++ " " ++ Sprintf_d unread
                         ++ " unread message(s)" ++ nl) ;;~
                exit 0
              else
                println "No new mail" ;;~
                exit 1
          end
      end
  end.

(** [runMailRead]; [msgID] is the one positional argument. *)
Definition runMailRead (mailReadJSON : bool) (msgID : string) : K W error :=
  found <~ liftM (call EvFindBeadsWorkDir findBeadsWorkDir) ;;
  let '(workDir, err) := found in
  match err with
  | Some e => retK (Some ("not in a Gas Town workspace: " ++ e))
  | None =>
      address <~ liftM (call EvDetectSender detectSender) ;;
      let router := NewRouter workDir in
      let '(mailbox, err) := GetMailbox router address in
      match err with
      | Some e => retK (Some ("getting mailbox: " ++ e))
      | None =>
          got <~ liftM (call (EvMailboxGet (identity mailbox) msgID)
                          (Mailbox_Get mailbox msgID)) ;;
          match got with
          | Err e => retK (Some ("getting message: " ++ e))
          | Ok msg =>
              act (CallMarkRead (identity mailbox) msgID)
                (Mailbox_MarkRead mailbox msgID) ;;~
              if mailReadJSON then
                act (Encode (JMessage msg)) (json_Encode (JMessage msg))
              else
                let priorityStr :=
                  if Priority_ msg =? PriorityUrgent then " " ++ Bold "[URGENT]"
                  else if Priority_ msg =? PriorityHigh
                       then " " ++ Bold "[HIGH PRIORITY]"
                       else "" in
                let typeStr := typeMarker msg in
                print (Bold "Subject:" ++ " " ++ Subject msg ++ typeStr
                         ++ priorityStr ++ nl ++ nl) ;;~
                print ("From: " ++ From_ msg ++ nl) ;;~
                print ("To: " ++ To msg ++ nl) ;;~
                print ("Date: " ++ Format msg "2006-01-02 15:04:05" ++ nl) ;;~
                print ("ID: " ++ Dim (ID msg) ++ nl) ;;~
                (if negb (ThreadID msg =? "")
                 then print ("Thread: " ++ Dim (ThreadID msg) ++ nl)
                 else retK tt) ;;~
                (if negb (ReplyTo msg =? "")
                 then print ("Reply-To: " ++ Dim (ReplyTo msg) ++ nl)
                 else retK tt) ;;~
                (if negb (Body msg =? "")
                 then print (nl ++ Body msg ++ nl)
                 else retK tt) ;;~
                retK nil_error
          end
      end
  end.

(** [runMailDelete]. *)
Definition runMailDelete (msgID : string) : K W error :=
  found <~ liftM (call EvFindBeadsWorkDir findBeadsWorkDir) ;;
  let '(workDir, err) := found in
  match err with
  | Some e => retK (Some ("not in a Gas Town workspace: " ++ e))
  | None =>
      address <~ liftM (call EvDetectSender detectSender) ;;
      let router := NewRouter workDir in
      let '(mailbox, err) := GetMailbox router address in
      match err with
      | Some e => retK (Some ("getting mailbox: " ++ e))
      | None =>
          err <~ act (CallDelete (identity mailbox) msgID)
                   (Mailbox_Delete mailbox msgID) ;;
          match err with
          | Some e => retK (Some ("deleting message: " ++ e))
          | None =>
              print (Bold "✓" ++ " Message deleted" ++ nl) ;;~
              retK nil_error
          end
      end
  end.





End Commands.

End console.

(** ** The scripted world, for the commands that read the mailbox *)
Module demo.
Import mail console.

Definition withStored (w : script.World) (stored : list Message) : script.World :=
  script.mkWorld (script.bdResult w) (script.sessionResult w)
    (script.displayResult w) (script.sendKeysResult w) stored
    (script.counts w) (script.clock w) (script.entropy w)
    (script.workDirResult w) (script.sender w).

Definition unread (w : script.World) : list Message :=
  List.filter (fun m => negb (Read m)) (script.stored w).

Definition markRead (m : Message) : Message :=
  mkMessage (ID m) (From_ m) (To m) (Subject m) (Body m) (Priority_ m)
    (Type_ m) (Delivery_ m) (ThreadID m) (ReplyTo m) true.

Definition has (id : string) (w : script.World) : bool :=
  existsb (fun m => ID m =? id) (script.stored w).

#[global] Instance store : Store script.World := {
  Mailbox_List := fun _ w => ((script.stored w, None), w);
  Mailbox_ListUnread := fun _ w => ((unread w, None), w);
  Mailbox_ListByThread := fun _ tid w =>
    ((List.filter (fun m => ThreadID m =? tid) (script.stored w), None), w);
  Mailbox_MarkRead := fun _ id w =>
    if has id w then
      (None, withStored w
               (List.map (fun m => if ID m =? id then markRead m else m)
                  (script.stored w)))
    else (Some ("message not found: " ++ id), w);
  Mailbox_Delete := fun _ id w =>
    if has id w then
      (None, withStored w
               (List.filter (fun m => negb (ID m =? id)) (script.stored w)))
    else (Some ("message not found: " ++ id), w);
  Mailbox_Counts := fun _ w =>
    ((Z.of_nat (List.length (script.stored w)),
      Z.of_nat (List.length (unread w)), None), w);
  json_Encode := fun _ w => (None, w)
}.

#[global] Instance style : Style := {
  Bold := fun s => "*" ++ s ++ "*";
  Dim := fun s => s;
  Format := fun _ layout => layout
}.

Definition begin (w : script.World) : Run script.World := mkRun w [].


(** A world whose mailbox holds one unread message, counted as such. *)
Definition oneUnread : script.World :=
  script.mkWorld (None, "") (true, None) None None [script.threaded]
    [Ok (1, 1)%Z] 0 [] ("/town", None) "mayor/".

(** A process in the directory of the polecat Toast of the rig gastown,
    with the only [.beads] entry in the town root, which the workspace
    package does not find; the same in the directory of a crew member; and a
    process told by its environment who it is. *)
Definition noEntry : error := Some "stat: no such file or directory".

Definition polecatHost : host.Host :=
  host.mkHost (fun _ => "") (Ok "/town/gastown/polecats/Toast/src")
    (fun path => if path =? "/town/.beads" then None else noEntry)
    (Err "not in a Gas Town workspace").

Definition crewHost : host.Host :=
  host.mkHost (fun _ => "") (Ok "/town/gastown/crew/max")
    (fun path => noEntry) (Err "not in a Gas Town workspace").

Definition envHost : host.Host :=
  host.mkHost
    (fun key => if key =? "GT_RIG" then "gastown"
                else if key =? "GT_POLECAT" then "Toast" else "")
    (Err "getwd: no such file or directory")
    (fun path => if path =? "/town/.beads" then None else noEntry)
    (Ok "/town").

(** A world outside any workspace. *)
Definition nowhere : script.World :=
  script.mkWorld (None, "") (true, None) None None [] [] 0 []
    ("", Some "no .beads directory found") "mayor/".

End demo.

(** * Properties *)

(** ** Strings *)
Section StringFacts.
Import gostrings.

Lemma HasPrefix_app (p t : string) : HasPrefix (p ++ t) p = true.
Proof.
  induction p as [|c p IH]; cbn; [reflexivity|].
  now rewrite Ascii.eqb_refl.
Qed.

Lemma HasPrefix_inv (s p : string) :
  HasPrefix s p = true -> exists t, s = p ++ t.
Proof.
  revert s; induction p as [|c p IH]; intros s Hs; cbn in *.
  - now exists s.
  - destruct s as [|d s]; [discriminate|].
    destruct (Ascii.eqb d c) eqn:E; [|discriminate].
    apply Ascii.eqb_eq in E; subst d.
    destruct (IH _ Hs) as [t ->]. now exists t.
Qed.

Lemma occurs_app (c : ascii) (s t : string) :
  occurs c (s ++ t) = occurs c s || occurs c t.
Proof.
  induction s as [|d s IH]; cbn; [reflexivity|].
  now rewrite IH, orb_assoc.
Qed.

Lemma Cut_slash_none (s : string) :
  occurs slash s = false -> Cut s "/" = None.
Proof.
  induction s as [|d s IH]; intros Ho; [reflexivity|].
  cbn [occurs] in Ho. apply orb_false_iff in Ho as [Hd Hs].
  unfold slash in Hd. cbn [Cut HasPrefix]. rewrite Hd.
  now rewrite (IH Hs).
Qed.

Lemma Cut_slash_some (rig target : string) :
  occurs slash rig = false ->
  Cut (rig ++ "/" ++ target) "/" = Some (rig, target).
Proof.
  induction rig as [|d rig IH]; intros Ho.
  - reflexivity.
  - cbn [occurs] in Ho. apply orb_false_iff in Ho as [Hd Hs].
    unfold slash in Hd.
    change ((String d rig) ++ "/" ++ target)
      with (String d (rig ++ "/" ++ target)).
    cbn [Cut HasPrefix]. rewrite Hd.
    now rewrite (IH Hs).
Qed.

Lemma SplitN_no_slash (s : string) :
  occurs slash s = false -> SplitN s "/" 2 = [s].
Proof. intros Ho. cbn [SplitN]. now rewrite Cut_slash_none. Qed.

Lemma SplitN_slash (rig target : string) :
  occurs slash rig = false ->
  SplitN (rig ++ "/" ++ target) "/" 2 = [rig; target].
Proof. intros Ho. cbn [SplitN]. now rewrite Cut_slash_some. Qed.

End StringFacts.

(** ** Session identities *)
Section SessionIdentity.
Import gostrings mail.

Lemma addressToSessionID_mayor (address : string) :
  HasPrefix address "mayor" = true -> addressToSessionID address = "gt-mayor".
Proof. intros Hm. unfold addressToSessionID. now rewrite Hm. Qed.

Lemma addressToSessionID_target (rig target : string) :
  HasPrefix (rig ++ "/" ++ target) "mayor" = false ->
  occurs slash rig = false ->
  target <> "" ->
  addressToSessionID (rig ++ "/" ++ target) = "gt-" ++ rig ++ "-" ++ target.
Proof.
  intros Hm Hr Ht. unfold addressToSessionID.
  rewrite Hm, (SplitN_slash _ _ Hr).
  now apply String.eqb_neq in Ht as ->.
Qed.

Lemma addressToSessionID_no_separator (address : string) :
  HasPrefix address "mayor" = false ->
  occurs slash address = false ->
  addressToSessionID address = "".
Proof.
  intros Hm Ho. unfold addressToSessionID.
  now rewrite Hm, (SplitN_no_slash _ Ho).
Qed.

Lemma addressToSessionID_no_target (rig : string) :
  HasPrefix (rig ++ "/") "mayor" = false ->
  occurs slash rig = false ->
  addressToSessionID (rig ++ "/") = "".
Proof.
  intros Hm Hr. unfold addressToSessionID. rewrite Hm.
  change (rig ++ "/") with (rig ++ "/" ++ "").
  now rewrite (SplitN_slash _ _ Hr).
Qed.

(** C4, as amended.  An address that begins with "mayor" resolves to the one
    fixed identity "gt-mayor".  For an address that does not begin with
    "mayor": [rig/target] with a rig free of "/" and a non-empty target
    resolves to "gt-<rig>-<target>" (for an empty rig too); an address
    without a separator, and an address [rig/] with an empty target, resolve
    to the empty string.  No case is an error: the function is total. *)
Theorem addressToSessionID_cases (address : string) :
  (HasPrefix address "mayor" = true ->
   addressToSessionID address = "gt-mayor") /\
  (HasPrefix address "mayor" = false ->
   forall rig target : string,
     address = rig ++ "/" ++ target ->
     occurs slash rig = false ->
     target <> "" ->
     addressToSessionID address = "gt-" ++ rig ++ "-" ++ target) /\
  (HasPrefix address "mayor" = false ->
   occurs slash address = false ->
   addressToSessionID address = "") /\
  (HasPrefix address "mayor" = false ->
   forall rig : string,
     address = rig ++ "/" ->
     occurs slash rig = false ->
     addressToSessionID address = "").
Proof.
  repeat split.
  - apply addressToSessionID_mayor.
  - intros Hm rig target -> Hr Ht. now apply addressToSessionID_target.
  - apply addressToSessionID_no_separator.
  - intros Hm rig -> Hr. now apply addressToSessionID_no_target.
Qed.

Lemma addressToSessionID_cases_witness :
  addressToSessionID "mayor/" = "gt-mayor" /\
  addressToSessionID "mayor" = "gt-mayor" /\
  addressToSessionID "gastown/Toast" = "gt-gastown-Toast" /\
  addressToSessionID "gastown/refinery" = "gt-gastown-refinery" /\
  addressToSessionID "rig" = "" /\
  addressToSessionID "rig/" = "".
Proof.
  split; [apply (addressToSessionID_cases "mayor/"); reflexivity|].
  split; [apply (addressToSessionID_cases "mayor"); reflexivity|].
  split; [apply (proj1 (proj2 (addressToSessionID_cases "gastown/Toast"))
                   eq_refl "gastown" "Toast" eq_refl eq_refl); discriminate|].
  split; [apply (proj1 (proj2 (addressToSessionID_cases "gastown/refinery"))
                   eq_refl "gastown" "refinery" eq_refl eq_refl); discriminate|].
  split; [apply (addressToSessionID_cases "rig"); reflexivity|].
  apply (proj2 (proj2 (proj2 (addressToSessionID_cases "rig/")))
           eq_refl "rig" eq_refl eq_refl).
Defined.

(** The second and third clauses of C4 do not hold for every address: a rig
    whose name begins with "mayor" is taken for the mayor, and "mayor" itself
    has no separator. *)
Lemma addressToSessionID_mayor_prefix_wins :
  ~ (forall address : string,
       (HasPrefix address "mayor" = true ->
        addressToSessionID address = "gt-mayor") /\
       (forall rig target : string,
          address = rig ++ "/" ++ target ->
          rig <> "" -> occurs slash rig = false -> target <> "" ->
          addressToSessionID address = "gt-" ++ rig ++ "-" ++ target) /\
       (occurs slash address = false \/ (exists rig, address = rig ++ "/") ->
        addressToSessionID address = "")).
Proof.
  intros Hclaim.
  destruct (Hclaim "mayors/bob") as (_ & Htarget & _).
  specialize (Htarget "mayors" "bob" eq_refl).
  assert (Hgot : addressToSessionID "mayors/bob" = "gt-mayor") by reflexivity.
  rewrite Hgot in Htarget.
  assert (Hne : "gt-mayor" <> "gt-" ++ "mayors" ++ "-" ++ "bob") by discriminate.
  apply Hne, Htarget; [discriminate | reflexivity | discriminate].
Qed.

End SessionIdentity.

(** ** Thread ids *)
Section ThreadID.
Import gostrings mail cmd.












Context {W : Type} `{Ports W}.

(** The buffer [generateThreadID] encodes when it runs in [st]. *)
Lemma generateThreadID_unfold (st : St W) :
  generateThreadID st =
    let (written, w') := rand_Read 6 (world st) in
    ("thread-" ++ hex.EncodeToString (fill (repeat x00 6) written),
     mkSt w' (trace st ++ [EvRandRead 6])).
Proof.
  unfold generateThreadID, bind, call, ret.
  destruct (rand_Read 6 (world st)); reflexivity.
Qed.


End ThreadID.

(** ** The router: persist first, then one best-effort side effect *)
Section SendFacts.
Import gostrings mail.
Context {W : Type} `{Ports W} `{Pkg}.

Lemma persist_trace (r : Router) (msg : Message) (st : St W) :
  trace (snd (persist r msg st)) =
    (trace st ++
     [EvExec "bd" (sendArgs msg)
        ("BEADS_AGENT_NAME=" ++ addressToIdentity (From_ msg)) (workDir r)])%list.
Proof.
  unfold persist, call.
  destruct (exec_Run _ _ _ _ (world st)); reflexivity.
Qed.

(** [Send] in two steps: the call of [bd], then [deliver] if it went well. *)
Lemma Send_unfold (r : Router) (msg : Message) (st : St W) :
  Send r msg st =
    match fst (fst (persist r msg st)) with
    | Some e =>
        (Some (if negb (TrimSpace (snd (fst (persist r msg st))) =? "")
               then TrimSpace (snd (fst (persist r msg st)))
               else "sending message: " ++ e),
         snd (persist r msg st))
    | None => (nil_error, snd (deliver r msg (snd (persist r msg st))))
    end.
Proof.
  unfold Send, bind at 1.
  destruct (persist r msg st) as [[err stderr] st1]; cbn [fst snd].
  destruct err as [e|].
  - destruct (negb (TrimSpace stderr =? "")); reflexivity.
  - unfold bind, ret. destruct (deliver r msg st1); reflexivity.
Qed.

(** What [deliver] adds to the trace: nothing for an empty session id; the
    presence check alone when the check fails or finds no session; the check
    and one display or injection otherwise. *)
Lemma deliver_trace (r : Router) (msg : Message) (st : St W) :
  let sid := addressToSessionID (To msg) in
  let hs := fst (tmux_HasSession sid (world st)) in
  trace (snd (deliver r msg st)) =
    (trace st ++
     if sid =? "" then []
     else EvHasSession sid ::
          if isSome (snd hs) || negb (fst hs) then []
          else [if Delivery_ msg =? DeliveryInterrupt
                then EvSendKeysRaw sid (reminder msg)
                else EvDisplayMessage sid (notification msg)])%list.
Proof.
  cbv zeta. unfold deliver, interruptRecipient, notifyRecipient.
  destruct (Delivery_ msg =? DeliveryInterrupt);
    (destruct (addressToSessionID (To msg) =? "");
     [unfold ret; cbn; now rewrite app_nil_r|]);
    unfold bind, call;
    destruct (tmux_HasSession (addressToSessionID (To msg)) (world st))
      as [[has err] w1]; cbn [fst snd world trace];
    (destruct (isSome err || negb has); [reflexivity|]).
  - cbn [world trace].
    destruct (tmux_SendKeysRaw (addressToSessionID (To msg)) (reminder msg) w1).
    cbn [snd trace]. now rewrite <- app_assoc.
  - cbn [world trace].
    destruct (tmux_DisplayMessageDefault (addressToSessionID (To msg))
                (notification msg) w1).
    cbn [snd trace]. now rewrite <- app_assoc.
Qed.

Lemma deliver_session_events (r : Router) (msg : Message) (st : St W) :
  exists side : list Event,
    trace (snd (deliver r msg st)) = (trace st ++ side)%list /\
    forallb isSessionEvent side = true /\
    List.length (List.filter isSideEffect side) <= 1.
Proof.
  eexists. split; [apply deliver_trace|].
  destruct (addressToSessionID (To msg) =? ""); [split; cbn; [reflexivity|lia]|].
  destruct (isSome _ || negb _); [split; cbn; [reflexivity|lia]|].
  destruct (Delivery_ msg =? DeliveryInterrupt); split; cbn; (reflexivity || lia).
Qed.

Lemma Send_error_iff (r : Router) (msg : Message) (st : St W) :
  fst (Send r msg st) <> nil_error <->
  fst (fst (persist r msg st)) <> nil_error.
Proof.
  rewrite Send_unfold.
  destruct (fst (fst (persist r msg st))); cbn [fst]; unfold nil_error;
    split; congruence.
Qed.

Lemma Send_trace_starts_with_persist (r : Router) (msg : Message) (st : St W) :
  exists rest : list Event,
    trace (snd (Send r msg st)) =
      (trace st ++
       EvExec "bd" (sendArgs msg)
         ("BEADS_AGENT_NAME=" ++ addressToIdentity (From_ msg)) (workDir r)
       :: rest)%list.
Proof.
  rewrite Send_unfold.
  destruct (fst (fst (persist r msg st))); cbn [snd].
  - exists []. apply persist_trace.
  - destruct (deliver_session_events r msg (snd (persist r msg st)))
      as (side & -> & _).
    exists side. rewrite persist_trace, <- app_assoc. reflexivity.
Qed.

(** C1.  [Send] returns an error exactly when the call of [bd] that persists
    the message fails.  That call is the first thing [Send] does; when it
    fails nothing else is done; when it succeeds [Send] returns no error
    whatever the session ports answer, and everything it does afterwards is
    a call to a session port, at most one of them a display or injection. *)
Theorem Send_fails_iff_persist_fails (r : Router) (msg : Message) (st : St W) :
  (fst (Send r msg st) <> nil_error <->
   fst (fst (persist r msg st)) <> nil_error) /\
  trace (snd (persist r msg st)) =
    (trace st ++
     [EvExec "bd" (sendArgs msg)
        ("BEADS_AGENT_NAME=" ++ addressToIdentity (From_ msg)) (workDir r)])%list /\
  (fst (fst (persist r msg st)) <> nil_error ->
   snd (Send r msg st) = snd (persist r msg st)) /\
  (fst (fst (persist r msg st)) = nil_error ->
   fst (Send r msg st) = nil_error /\
   exists side : list Event,
     trace (snd (Send r msg st)) = (trace (snd (persist r msg st)) ++ side)%list /\
     forallb isSessionEvent side = true /\
     List.length (List.filter isSideEffect side) <= 1).
Proof.
  split; [apply Send_error_iff|].
  rewrite Send_unfold. split; [apply persist_trace|split].
  - destruct (fst (fst (persist r msg st))); cbn [snd]; unfold nil_error;
      congruence.
  - intros ->. cbn [fst snd]. split; [reflexivity|].
    apply deliver_session_events.
Qed.

End SendFacts.

(** ** The two delivery modes *)
Section Delivery.
Import gostrings mail.

Lemma append_assoc (a b c : string) : (a ++ b) ++ c = a ++ (b ++ c).
Proof. induction a as [|x a IH]; cbn; [reflexivity|now rewrite IH]. Qed.





Context {W : Type} `{Ports W} `{Pkg}.


End Delivery.

Section DeliveryExamples.
Import gostrings mail.


End DeliveryExamples.

(** ** [gt mail send]: priority, type and thread of the message *)
Section SendCommand.
Import gostrings mail cmd.
Context {W : Type} `{Ports W} `{Pkg}.

(** The message [runMailSend] builds, field by field. *)
Lemma buildMessage_shape (f : SendFlags) (wd from to : string) (st : St W) :
  fst (buildMessage f wd from to st) =
    mkMessage "" from to (mailSubject f) (mailBody f)
      (if mailNotify f && (ParsePriority (mailPriority f) =? PriorityNormal)
       then PriorityHigh else ParsePriority (mailPriority f))
      (if negb (mailReplyTo f =? "")
          && (ParseMessageType (mailType f) =? TypeNotification)
       then TypeReply else ParseMessageType (mailType f))
      (if mailInterrupt f then DeliveryInterrupt else DeliveryQueue)
      (if mailReplyTo f =? "" then fst (generateThreadID st)
       else
         let looked :=
           call (EvMailboxGet (addressToIdentity from) (mailReplyTo f))
             (Mailbox_Get (fst (GetMailbox (NewRouter wd) from)) (mailReplyTo f))
             st in
         match fst looked with
         | Ok original =>
             if ThreadID original =? "" then fst (generateThreadID (snd looked))
             else ThreadID original
         | Err _ => fst (generateThreadID (snd looked))
         end)
      (mailReplyTo f) false.
Proof.
  unfold buildMessage, GetMailbox, NewMailboxFromAddress, NewRouter, nil_error.
  cbn [fst snd workDir identity]. cbv zeta.
  unfold bind, ret. cbv beta.
  destruct (mailNotify f && _), (mailInterrupt f),
    (ParseMessageType (mailType f) =? TypeNotification) eqn:Et;
    cbn [Priority_ Type_ ThreadID setPriority setType setDelivery setReplyTo
         setThreadID newMessage];
    rewrite ?Et;
    (destruct (String.eqb_spec (mailReplyTo f) "") as [E|E]; cbn [negb andb];
     [ rewrite E;
       cbn [Priority_ Type_ ThreadID setPriority setType setDelivery
            setReplyTo setThreadID newMessage String.eqb];
       destruct (generateThreadID st); reflexivity
     | destruct (call _ _ st) as [[original|e] st1]; cbn [fst snd];
       cbn [Priority_ Type_ ThreadID setPriority setType setDelivery
            setReplyTo setThreadID newMessage String.eqb];
       [ destruct (ThreadID original =? ""); [|reflexivity] | ];
       destruct (generateThreadID st1); reflexivity ]).
Qed.

Lemma runMailSend_unfold (f : SendFlags) (to : string) (st : St W)
    (wd from : string) (st1 st2 st3 : St W) (msg : Message) :
  call EvFindBeadsWorkDir findBeadsWorkDir st = ((wd, nil_error), st1) ->
  call EvDetectSender detectSender st1 = (from, st2) ->
  buildMessage f wd from to st2 = (msg, st3) ->
  runMailSend f to st =
    (match fst (Send (NewRouter wd) msg st3) with
     | Some e => Some ("sending message: " ++ e)
     | None => nil_error
     end,
     snd (Send (NewRouter wd) msg st3)).
Proof.
  intros Hwd Hfrom Hmsg. unfold runMailSend, bind at 1. rewrite Hwd.
  unfold nil_error, bind at 1. rewrite Hfrom.
  unfold bind at 1. rewrite Hmsg.
  unfold bind, ret. destruct (Send (NewRouter wd) msg st3) as [[e|] st4];
    reflexivity.
Qed.

Lemma runMailSend_no_workspace (f : SendFlags) (to : string) (st : St W)
    (wd e : string) (st1 : St W) :
  call EvFindBeadsWorkDir findBeadsWorkDir st = ((wd, Some e), st1) ->
  runMailSend f to st = (Some ("not in a Gas Town workspace: " ++ e), st1).
Proof.
  intros Hwd. unfold runMailSend, bind at 1. rewrite Hwd. reflexivity.
Qed.

(** The message built is the message persisted: the call of [bd] with its
    arguments is the first thing that happens after it was built. *)
Lemma runMailSend_persists_built (f : SendFlags) (to : string) (st : St W)
    (wd from : string) (st1 st2 st3 : St W) (msg : Message) :
  call EvFindBeadsWorkDir findBeadsWorkDir st = ((wd, nil_error), st1) ->
  call EvDetectSender detectSender st1 = (from, st2) ->
  buildMessage f wd from to st2 = (msg, st3) ->
  exists rest : list Event,
    trace (snd (runMailSend f to st)) =
      (trace st3 ++
       EvExec "bd" (sendArgs msg)
         ("BEADS_AGENT_NAME=" ++ addressToIdentity (From_ msg)) wd :: rest)%list.
Proof.
  intros Hwd Hfrom Hmsg.
  rewrite (runMailSend_unfold _ _ _ _ _ _ _ _ _ Hwd Hfrom Hmsg). cbn [snd].
  apply (Send_trace_starts_with_persist (NewRouter wd) msg st3).
Qed.


Lemma sendArgs_priority (msg : Message) :
  exists rest : list string,
    sendArgs msg =
      (["mail"; "send"; addressToIdentity (To msg); "-s"; Subject msg;
        "-m"; Body msg; "--priority";
        Sprintf_d (PriorityToBeads (Priority_ msg))] ++ rest)%list.
Proof.
  unfold sendArgs.
  destruct (negb (Type_ msg =? "") && negb (Type_ msg =? TypeNotification)),
    (negb (ThreadID msg =? "")), (negb (ReplyTo msg =? ""));
    cbn [List.app]; eexists; reflexivity.
Qed.

(** C10.  With [--notify] and a priority that parses to normal, the message
    is built with priority high; a priority that parses to anything else is
    left as parsed, with or without [--notify] (and without [--notify] a
    normal priority stays normal).  The message built is the message sent:
    the next call is [bd mail send] with the code of that priority. *)
Theorem notify_upgrades_normal_priority (f : SendFlags) (to : string)
    (st : St W) (wd from : string) (st1 st2 st3 : St W) (msg : Message) :
  call EvFindBeadsWorkDir findBeadsWorkDir st = ((wd, nil_error), st1) ->
  call EvDetectSender detectSender st1 = (from, st2) ->
  buildMessage f wd from to st2 = (msg, st3) ->
  (mailNotify f = true ->
   ParsePriority (mailPriority f) = PriorityNormal ->
   Priority_ msg = PriorityHigh) /\
  (ParsePriority (mailPriority f) <> PriorityNormal ->
   Priority_ msg = ParsePriority (mailPriority f)) /\
  (mailNotify f = false ->
   Priority_ msg = ParsePriority (mailPriority f)) /\
  exists (more : list string) (rest : list Event),
    trace (snd (runMailSend f to st)) =
      (trace st3 ++
       EvExec "bd"
         (["mail"; "send"; addressToIdentity to; "-s"; mailSubject f;
           "-m"; mailBody f; "--priority";
           Sprintf_d (PriorityToBeads (Priority_ msg))] ++ more)
         ("BEADS_AGENT_NAME=" ++ addressToIdentity from) wd :: rest)%list.
Proof.
  intros Hwd Hfrom Hmsg.
  destruct (runMailSend_persists_built _ _ _ _ _ _ _ _ _ Hwd Hfrom Hmsg)
    as [rest Hrest].
  destruct (sendArgs_priority msg) as [more Hmore].
  rewrite Hmore in Hrest.
  assert (Hshape := buildMessage_shape f wd from to st2).
  rewrite Hmsg in Hshape. cbn [fst] in Hshape. subst msg.
  cbn [Priority_ To Subject Body From_] in *.
  repeat split.
  - intros -> ->. reflexivity.
  - intros Hne. apply String.eqb_neq in Hne. now rewrite Hne, andb_false_r.
  - intros ->. reflexivity.
  - exists more, rest. exact Hrest.
Qed.

(** C3, as amended.  With [--reply-to], a type that parses to notification
    becomes reply, whether it is the default or was given on the command
    line; a type that parses to anything else is kept.  Without [--reply-to]
    the type is the parsed one. *)
Theorem reply_upgrades_notification_type (f : SendFlags) (wd from to : string)
    (st : St W) :
  (mailReplyTo f <> "" ->
   ParseMessageType (mailType f) = TypeNotification ->
   Type_ (fst (buildMessage f wd from to st)) = TypeReply) /\
  (mailReplyTo f <> "" ->
   ParseMessageType (mailType f) <> TypeNotification ->
   Type_ (fst (buildMessage f wd from to st)) = ParseMessageType (mailType f)) /\
  (mailReplyTo f = "" ->
   Type_ (fst (buildMessage f wd from to st)) = ParseMessageType (mailType f)).
Proof.
  rewrite buildMessage_shape. cbn [Type_]. repeat split.
  - intros Hr ->. apply String.eqb_neq in Hr. now rewrite Hr.
  - intros _ Hne. apply String.eqb_neq in Hne. now rewrite Hne, andb_false_r.
  - intros ->. reflexivity.
Qed.


End SendCommand.

Section SendCommandExamples.
Import gostrings mail cmd.

(** [gt mail send gastown/ -s "All hands" -m "Swarm starting" --notify]. *)
Lemma notify_upgrades_normal_priority_witness :
  let f := mkSendFlags "All hands" "Swarm starting" "normal" "notification"
             "" true false in
  let st := script.start (script.healthy []) in
  let st1 := snd (call EvFindBeadsWorkDir findBeadsWorkDir st) in
  let st2 := snd (call EvDetectSender detectSender st1) in
  mailNotify f = true /\
  ParsePriority (mailPriority f) = PriorityNormal /\
  Priority_ (fst (buildMessage f "/town" "mayor/" "gastown/" st2)) = PriorityHigh.
Proof.
  cbv zeta. split; [reflexivity|]. split; [reflexivity|].
  refine (proj1 (notify_upgrades_normal_priority
                   (mkSendFlags "All hands" "Swarm starting" "normal"
                      "notification" "" true false)
                   "gastown/" (script.start (script.healthy []))
                   "/town" "mayor/" _ _ _ _ eq_refl eq_refl eq_refl)
            eq_refl eq_refl).
Defined.

(** [--reply-to msg-1] alone gives type reply; with [--type task] the type
    stays task. *)
Lemma reply_upgrades_notification_type_witness :
  Type_ (fst (buildMessage
                (mkSendFlags "Re: Status" "Done" "normal" "notification"
                   "msg-1" false false)
                "/town" "mayor/" "gastown/Toast"
                (script.start (script.healthy [script.threaded])))) = TypeReply /\
  Type_ (fst (buildMessage
                (mkSendFlags "Re: Status" "Done" "normal" "task"
                   "msg-1" false false)
                "/town" "mayor/" "gastown/Toast"
                (script.start (script.healthy [script.threaded])))) = TypeTask.
Proof.
  split.
  - apply (proj1 (reply_upgrades_notification_type
                    (mkSendFlags "Re: Status" "Done" "normal" "notification"
                       "msg-1" false false)
                    "/town" "mayor/" "gastown/Toast"
                    (script.start (script.healthy [script.threaded]))));
      [discriminate|reflexivity].
  - refine (proj1 (proj2 (reply_upgrades_notification_type
                    (mkSendFlags "Re: Status" "Done" "normal" "task"
                       "msg-1" false false)
                    "/town" "mayor/" "gastown/Toast"
                    (script.start (script.healthy [script.threaded])))) _ _);
      discriminate.
Defined.

(** C3 as stated fails at
    [gt mail send gastown/Toast -s "Re: Status" -m "Done" --type notification
    --reply-to msg-1]: the type notification is supplied on the command
    line, and the message is built with type reply.  The flag variable
    holds the same text whether the type was given or defaulted. *)
Lemma explicit_notification_becomes_reply :
  let f := mkSendFlags "Re: Status" "Done" "normal" "notification" "msg-1"
             false false in
  let built := fst (buildMessage f "/town" "mayor/" "gastown/Toast"
                      (script.start (script.healthy [script.threaded]))) in
  mailReplyTo f <> "" /\
  ParseMessageType (mailType f) = TypeNotification /\
  Type_ built = TypeReply /\
  Type_ built <> ParseMessageType (mailType f).
Proof.
  cbv zeta. split; [discriminate|]. split; [reflexivity|].
  assert (Hgot : Type_ (fst (buildMessage
                    (mkSendFlags "Re: Status" "Done" "normal" "notification"
                       "msg-1" false false)
                    "/town" "mayor/" "gastown/Toast"
                    (script.start (script.healthy [script.threaded]))))
                 = TypeReply) by reflexivity.
  rewrite Hgot. split; [reflexivity|discriminate].
Qed.



End SendCommandExamples.

(** ** Mailboxes *)
Section Mailboxes.
Import mail.
Context `{Pkg}.

(** C9.  [GetMailbox] returns no error, for any address whatever: the
    mailbox it returns is the one of the durable identity of the address.
    Hence it succeeds for every address that has a durable identity and it
    has no failure of its own. *)
Theorem GetMailbox_never_fails (r : Router) (address : string) :
  snd (GetMailbox r address) = nil_error /\
  fst (GetMailbox r address) = NewMailboxFromAddress address (workDir r) /\
  identity (fst (GetMailbox r address)) = addressToIdentity address.
Proof. repeat split. Qed.

End Mailboxes.

(** ** The prefix registry *)
Section Registry.
Import gostrings session.

Lemma matchesPrefix_spec (r : PrefixRegistry) (name : string) :
  matchesPrefix r name = true <->
  exists prefix rigName : string,
    prefixToRig r !! prefix = Some rigName /\
    HasPrefix name (prefix ++ "-") = true.
Proof.
  unfold matchesPrefix. rewrite existsb_exists. split.
  - intros (p & Hin & Hp). apply in_map_iff in Hin as ([p' rigName] & <- & Hin).
    exists p', rigName. split; [|exact Hp].
    now apply elem_of_map_to_list, list_elem_of_In.
  - intros (p & rigName & Hl & Hp). exists p. split; [|exact Hp].
    apply in_map_iff. exists (p, rigName). split; [reflexivity|].
    now apply list_elem_of_In, elem_of_map_to_list.
Qed.

Lemma Register_lookup (r : PrefixRegistry) (prefix rigName : string) :
  prefixToRig (Register r prefix rigName) !! prefix = Some rigName.
Proof. unfold Register. cbn. apply lookup_insert_eq. Qed.

(** C5.  A name that starts with "hq-" is known whatever registry is in
    force, the empty one included.  Any other name is known exactly when it
    starts with a prefix registered for some rig, followed by a dash; in
    particular no such name is known to the empty registry, and a name
    formed from a prefix just registered is known. *)
Theorem IsKnownSession_spec (p : Process) (name : string) :
  (HasPrefix name "hq-" = true -> IsKnownSession p name = true) /\
  (forall rest : string,
     IsKnownSession (SetDefaultRegistry NewPrefixRegistry p) ("hq-" ++ rest) = true) /\
  (HasPrefix name "hq-" = false ->
   (IsKnownSession p name = true <->
    exists prefix rigName : string,
      prefixToRig (DefaultRegistry p) !! prefix = Some rigName /\
      HasPrefix name (prefix ++ "-") = true)) /\
  (HasPrefix name "hq-" = false ->
   IsKnownSession (SetDefaultRegistry NewPrefixRegistry p) name = false) /\
  (forall (r : PrefixRegistry) (prefix rigName rest : string),
     IsKnownSession (SetDefaultRegistry (Register r prefix rigName) p)
       (prefix ++ "-" ++ rest) = true).
Proof.
  unfold IsKnownSession, HQPrefix. split; [|split; [|split; [|split]]].
  - now intros ->.
  - intros rest. now rewrite (HasPrefix_app "hq-" rest).
  - intros ->. apply matchesPrefix_spec.
  - intros ->. reflexivity.
  - intros r prefix rigName rest.
    destruct (HasPrefix (prefix ++ "-" ++ rest) "hq-"); [reflexivity|].
    apply matchesPrefix_spec. exists prefix, rigName.
    split; [apply Register_lookup|].
    rewrite <- append_assoc. apply HasPrefix_app.
Qed.

(** The scenario of TestIsKnownSession_UsesDefaultRegistryAndHQPrefix. *)
Lemma IsKnownSession_spec_witness :
  let old := mkProcess NewPrefixRegistry in
  let r := Register NewPrefixRegistry "xy" "xrig" in
  let p := SetDefaultRegistry r old in
  IsKnownSession p "hq-mayor" = true /\
  IsKnownSession p "xy-worker" = true /\
  IsKnownSession p "zz-worker" = false /\
  IsKnownSession (SetDefaultRegistry NewPrefixRegistry p) "xy-worker" = false.
Proof.
  cbv zeta. split; [|split; [|split]].
  - apply (proj1 (IsKnownSession_spec _ "hq-mayor")). reflexivity.
  - apply (proj1 (proj2 (proj2 (IsKnownSession_spec _ "xy-worker"))) eq_refl).
    exists "xy", "xrig". split; [apply Register_lookup|reflexivity].
  - vm_compute. reflexivity.
  - apply (proj1 (proj2 (proj2 (proj2 (IsKnownSession_spec _ "xy-worker"))))).
    reflexivity.
Defined.

End Registry.

(** ** The wait poller *)
Section WaitPoller.
Import mail cmd.
Context {W : Type} `{Ports W}.

Ltac trace_done :=
  cbn [fst snd world trace cmd.exitCode];
  rewrite <- ?app_assoc; reflexivity.

(** One pass of the loop, case by case, with what it adds to the trace. *)
Lemma pollOnce_cases (mailbox : Mailbox) (mailWaitTimeout deadline : Z) (st : St W) :
  let counted := Mailbox_Count mailbox (world st) in
  let count := EvMailboxCount (identity mailbox) in
  match fst counted with
  | Err _ =>
      pollOnce mailbox mailWaitTimeout deadline st =
        (Some (exitCode Errored),
         mkSt (snd counted) (trace st ++ [count; EvExit 2]))
  | Ok (_, unread) =>
      if (unread >? 0)%Z then
        pollOnce mailbox mailWaitTimeout deadline st =
          (Some (exitCode MailArrived),
           mkSt (snd counted) (trace st ++ [count; EvExit 0]))
      else if (mailWaitTimeout >? 0)%Z then
        let now := time_Now (snd counted) in
        if (fst now >? deadline)%Z then
          pollOnce mailbox mailWaitTimeout deadline st =
            (Some (exitCode TimedOut),
             mkSt (snd now) (trace st ++ [count; EvNow; EvExit 1]))
        else
          pollOnce mailbox mailWaitTimeout deadline st =
            (None,
             mkSt (snd (time_Sleep pollInterval (snd now)))
               (trace st ++ [count; EvNow; EvSleep 5000000000]))
      else
        pollOnce mailbox mailWaitTimeout deadline st =
          (None,
           mkSt (snd (time_Sleep pollInterval (snd counted)))
             (trace st ++ [count; EvSleep 5000000000]))
  end.
Proof.
  cbv zeta. unfold pollOnce, bind, call, os_Exit, ret.
  destruct (Mailbox_Count mailbox (world st)) as [[[total unread]|e] w1];
    cbn [fst snd world trace]; [|trace_done].
  destruct (unread >? 0)%Z; [trace_done|].
  destruct (mailWaitTimeout >? 0)%Z; cbn [fst snd world trace].
  - destruct (time_Now w1) as [now w2]. cbn [fst snd world trace].
    destruct (now >? deadline)%Z; cbn [fst snd world trace]; [trace_done|].
    destruct (time_Sleep pollInterval w2) as [[] w3]. trace_done.
  - destruct (time_Sleep pollInterval w1) as [[] w2]. trace_done.
Qed.



(** Conversely, when the loop returns an exit code, some poll produced it
    and all polls before that one slept. *)
Lemma waitLoop_exit_inv (fuel : nat) (mailbox : Mailbox)
    (mailWaitTimeout deadline : Z) (st st'' : St W) (code : Z) :
  waitLoop fuel mailbox mailWaitTimeout deadline st = (Some code, st'') ->
  exists (k : nat) (st' : St W),
    k < fuel /\
    afterPolls k mailbox mailWaitTimeout deadline st = Some st' /\
    pollOnce mailbox mailWaitTimeout deadline st' = (Some code, st'').
Proof.
  revert st. induction fuel as [|fuel IH]; intros st Hw;
    cbn [waitLoop] in Hw; unfold bind, ret in Hw; [discriminate|].
  destruct (pollOnce mailbox mailWaitTimeout deadline st) as [[c|] st1] eqn:Ep.
  - injection Hw as -> ->. exists 0, st. repeat split; [lia|exact Ep].
  - destruct (IH _ Hw) as (k & st' & Hlt & Hk & Hp).
    exists (S k), st'. repeat split; [lia| |exact Hp].
    cbn [afterPolls]. now rewrite Ep.
Qed.



End WaitPoller.

Section WaitPollerExamples.
Import mail cmd.


End WaitPollerExamples.

Section RouterExamples.
Import mail.

(** The store rejects the message: [Send] fails and nothing reaches the
    session.  The store accepts it and every session port fails: [Send]
    succeeds all the same. *)
Lemma Send_fails_iff_persist_fails_witness :
  fst (fst (persist (NewRouter "/town") script.note
              (script.start script.rejecting))) <> nil_error /\
  fst (Send (NewRouter "/town") script.note (script.start script.rejecting))
    <> nil_error /\
  trace (snd (Send (NewRouter "/town") script.note
                (script.start script.rejecting))) =
    [EvExec "bd"
       ["mail"; "send"; "gastown/Toast"; "-s"; "Status check"; "-m";
        "How is it going?"; "--priority"; "2"; "--thread-id";
        "thread-0123456789ab"]
       "BEADS_AGENT_NAME=mayor/" "/town"] /\
  fst (fst (persist (NewRouter "/town") script.nudge
              (script.start script.flaky))) = nil_error /\
  fst (Send (NewRouter "/town") script.nudge (script.start script.flaky))
    = nil_error.
Proof.
  assert (Hrej : fst (fst (persist (NewRouter "/town") script.note
                             (script.start script.rejecting))) <> nil_error)
    by discriminate.
  split; [exact Hrej|]. split; [|split; [|split; [reflexivity|]]].
  - exact (proj2 (proj1 (Send_fails_iff_persist_fails (NewRouter "/town")
                           script.note (script.start script.rejecting)))
             Hrej).
  - exact (f_equal trace
             (proj1 (proj2 (proj2 (Send_fails_iff_persist_fails
                                     (NewRouter "/town") script.note
                                     (script.start script.rejecting))))
                Hrej)).
  - exact (proj1 (proj2 (proj2 (proj2 (Send_fails_iff_persist_fails
                                         (NewRouter "/town") script.nudge
                                         (script.start script.flaky))))
                    eq_refl)).
Defined.

End RouterExamples.

(** ** [gt mail wait] as a whole *)
Section WaitCommand.
Import mail cmd.
Context {W : Type} `{Ports W} `{Pkg}.

(** With a workspace, [runMailWait] is the loop on the mailbox of the
    sender; the deadline is read off the clock once, before the first poll,
    and only when a timeout is set. *)
Lemma runMailWait_unfold (mailWaitTimeout : Z) (fuel : nat) (st : St W)
    (wd from : string) (st1 st2 : St W) :
  call EvFindBeadsWorkDir findBeadsWorkDir st = ((wd, nil_error), st1) ->
  call EvDetectSender detectSender st1 = (from, st2) ->
  runMailWait mailWaitTimeout fuel st =
    if (mailWaitTimeout >? 0)%Z then
      waitLoop fuel (NewMailboxFromAddress from wd) mailWaitTimeout
        (fst (time_Now (world st2)) + wrap64 (mailWaitTimeout * Second))
        (mkSt (snd (time_Now (world st2))) (trace st2 ++ [EvNow]))
    else
      waitLoop fuel (NewMailboxFromAddress from wd) mailWaitTimeout 0 st2.
Proof.
  intros Hwd Hfrom. unfold runMailWait, bind at 1. rewrite Hwd.
  unfold nil_error, bind at 1. rewrite Hfrom.
  unfold GetMailbox, NewRouter, nil_error. cbn [workDir].
  unfold bind at 1. destruct (mailWaitTimeout >? 0)%Z.
  - unfold bind, call, ret. destruct (time_Now (world st2)); reflexivity.
  - reflexivity.
Qed.

Lemma runMailWait_no_workspace (mailWaitTimeout : Z) (fuel : nat) (st : St W)
    (wd e : string) (st1 : St W) :
  call EvFindBeadsWorkDir findBeadsWorkDir st = ((wd, Some e), st1) ->
  runMailWait mailWaitTimeout fuel st =
    (Some (exitCode Errored), mkSt (world st1) (trace st1 ++ [EvExit 2])).
Proof.
  intros Hwd. unfold runMailWait, bind at 1. rewrite Hwd. reflexivity.
Qed.

End WaitCommand.

Section MoreExamples.
Import mail cmd.

(** [gt mail wait --timeout 10] on an empty mailbox: polls at 0, 5 and 10
    seconds sleep (10 s is not after the deadline), the poll at 15 seconds
    exits with 1. *)
Example runMailWait_times_out :
  fst (runMailWait 10 5 (script.start (script.healthy []))) =
    Some (exitCode TimedOut) /\
  trace (snd (runMailWait 10 5 (script.start (script.healthy [])))) =
    [EvFindBeadsWorkDir; EvDetectSender; EvNow;
     EvMailboxCount "mayor/"; EvNow; EvSleep 5000000000;
     EvMailboxCount "mayor/"; EvNow; EvSleep 5000000000;
     EvMailboxCount "mayor/"; EvNow; EvSleep 5000000000;
     EvMailboxCount "mayor/"; EvNow; EvExit 1].
Proof. split; reflexivity. Qed.


(** [strings.TrimSpace] on the stderr of a failed [bd]. *)
Example TrimSpace_stderr :
  gostrings.TrimSpace ("  Error: database is locked " ++ nl) =
    "Error: database is locked".
Proof. reflexivity. Qed.

End MoreExamples.

(** * Further properties of the router *)
Section RouterMore.
Import gostrings mail.
Context {W : Type} `{Ports W} `{Pkg}.

(** X1.  An error of [Send] always says something: it is the trimmed stderr of
    [bd] when that is not blank, and otherwise the text of the failure of
    the call behind "sending message: ". *)
Theorem Send_error_text (r : Router) (msg : Message) (st : St W) (e : string) :
  fst (Send r msg st) = Some e ->
  e <> "" /\
  exists cause : string,
    fst (fst (persist r msg st)) = Some cause /\
    ((TrimSpace (snd (fst (persist r msg st))) <> "" /\
      e = TrimSpace (snd (fst (persist r msg st)))) \/
     (TrimSpace (snd (fst (persist r msg st))) = "" /\
      e = "sending message: " ++ cause)).
Proof.
  rewrite Send_unfold.
  destruct (fst (fst (persist r msg st))) as [cause|]; cbn [fst];
    [|discriminate].
  destruct (String.eqb_spec (TrimSpace (snd (fst (persist r msg st)))) "")
    as [E|E]; cbn [negb]; intros [= <-].
  - split; [discriminate|]. exists cause. split; [reflexivity|]. now right.
  - split; [exact E|]. exists cause. split; [reflexivity|]. now left.
Qed.

(** X2.  A recipient without a session id (a broadcast address [rig/], or an
    address without separator, neither beginning with "mayor") is never
    looked for: [Send] calls [bd] and no session port at all. *)
Theorem Send_broadcast_calls_no_session_port (r : Router) (msg : Message) (st : St W) :
  HasPrefix (To msg) "mayor" = false ->
  occurs slash (To msg) = false \/
  (exists rig : string, To msg = rig ++ "/" /\ occurs slash rig = false) ->
  trace (snd (Send r msg st)) =
    (trace st ++
     [EvExec "bd" (sendArgs msg)
        ("BEADS_AGENT_NAME=" ++ addressToIdentity (From_ msg)) (workDir r)])%list /\
  world (snd (Send r msg st)) = world (snd (persist r msg st)).
Proof.
  intros Hm Hshape.
  assert (Hsid : addressToSessionID (To msg) = "").
  { destruct Hshape as [Hno|(rig & Hto & Hrig)].
    - now apply addressToSessionID_no_separator.
    - rewrite Hto in *. now apply addressToSessionID_no_target. }
  rewrite Send_unfold.
  destruct (fst (fst (persist r msg st))); cbn [snd].
  - split; [apply persist_trace|reflexivity].
  - split.
    + rewrite deliver_trace, Hsid. cbn [String.eqb]. rewrite app_nil_r.
      apply persist_trace.
    + unfold deliver, interruptRecipient, notifyRecipient. rewrite Hsid.
      cbn [String.eqb]. unfold ret.
      now destruct (Delivery_ msg =? DeliveryInterrupt).
Qed.

(** X3.  [notifyRecipient] and [interruptRecipient] report an error only when the
    session is there and the display (the injection) itself fails: an empty
    session id, a failed presence check and an absent session all give
    nil. *)
Theorem recipient_error_only_from_the_session_call (r : Router) (msg : Message)
    (st : St W) (e : string) :
  let sid := addressToSessionID (To msg) in
  let hs := tmux_HasSession sid (world st) in
  (fst (notifyRecipient r msg st) = Some e <->
   sid <> "" /\ fst hs = (true, nil_error) /\
   fst (tmux_DisplayMessageDefault sid (notification msg) (snd hs)) = Some e) /\
  (fst (interruptRecipient r msg st) = Some e <->
   sid <> "" /\ fst hs = (true, nil_error) /\
   fst (tmux_SendKeysRaw sid (reminder msg) (snd hs)) = Some e).
Proof.
  cbv zeta. unfold notifyRecipient, interruptRecipient, nil_error.
  destruct (String.eqb_spec (addressToSessionID (To msg)) "") as [E|E].
  - unfold ret. cbn [fst].
    split; (split; [discriminate|intros (Hne & _); contradiction]).
  - unfold bind, call.
    destruct (tmux_HasSession (addressToSessionID (To msg)) (world st))
      as [[has err] w1]. cbn [fst snd world trace].
    destruct err as [err|]; cbn [isSome orb].
    + unfold ret. cbn [fst].
      split; (split; [discriminate|intros (_ & Hhs & _); discriminate]).
    + destruct has; cbn [negb fst snd world trace].
      * split.
        -- destruct (tmux_DisplayMessageDefault (addressToSessionID (To msg))
                       (notification msg) w1) as [res w2]; cbn [fst].
           split; [intros ->; repeat split; assumption|now intros (_ & _ & ->)].
        -- destruct (tmux_SendKeysRaw (addressToSessionID (To msg))
                       (reminder msg) w1) as [res w2]; cbn [fst].
           split; [intros ->; repeat split; assumption|now intros (_ & _ & ->)].
      * unfold ret. cbn [fst].
        split; (split; [discriminate|intros (_ & Hhs & _); discriminate]).
Qed.

End RouterMore.

Section SendArguments.
Import gostrings mail.
Context `{Pkg}.

(** X4.  The arguments [Send] hands to [bd] lose nothing of the message but the
    difference between no type and the type notification: equal argument
    lists mean equal recipient identity, subject, body, priority code,
    thread id and reply-to, and the same type or no [--type] on both
    sides. *)
Theorem sendArgs_determine_the_message (m1 m2 : Message) :
  sendArgs m1 = sendArgs m2 ->
  addressToIdentity (To m1) = addressToIdentity (To m2) /\
  Subject m1 = Subject m2 /\
  Body m1 = Body m2 /\
  Sprintf_d (PriorityToBeads (Priority_ m1)) =
    Sprintf_d (PriorityToBeads (Priority_ m2)) /\
  ThreadID m1 = ThreadID m2 /\
  ReplyTo m1 = ReplyTo m2 /\
  (Type_ m1 = Type_ m2 \/
   ((Type_ m1 = "" \/ Type_ m1 = TypeNotification) /\
    (Type_ m2 = "" \/ Type_ m2 = TypeNotification))).
Proof.
  unfold sendArgs.
  destruct (String.eqb_spec (Type_ m1) "") as [T1|T1],
    (String.eqb_spec (Type_ m1) TypeNotification) as [N1|N1],
    (String.eqb_spec (ThreadID m1) "") as [H1|H1],
    (String.eqb_spec (ReplyTo m1) "") as [R1|R1],
    (String.eqb_spec (Type_ m2) "") as [T2|T2],
    (String.eqb_spec (Type_ m2) TypeNotification) as [N2|N2],
    (String.eqb_spec (ThreadID m2) "") as [H2|H2],
    (String.eqb_spec (ReplyTo m2) "") as [R2|R2];
    cbn [negb andb List.app]; intros E;
    try discriminate E;
    injection E; intros; repeat split; try congruence;
    try (left; congruence);
    right; split; (now left) || (now right).
Qed.

End SendArguments.

(** * Further properties of [gt mail send] *)
Section SendCommandMore.
Import gostrings mail cmd.
Context {W : Type} `{Ports W} `{Pkg}.

Lemma generateThreadID_trace (st : St W) :
  trace (snd (generateThreadID st)) = (trace st ++ [EvRandRead 6])%list.
Proof.
  rewrite generateThreadID_unfold.
  destruct (rand_Read 6 (world st)); reflexivity.
Qed.

Lemma generateThreadID_nonempty (st : St W) : fst (generateThreadID st) <> "".
Proof.
  rewrite generateThreadID_unfold.
  destruct (rand_Read 6 (world st)); discriminate.
Qed.

Lemma buildMessage_thread_nonempty (f : SendFlags) (wd from to : string) (st : St W) :
  ThreadID (fst (buildMessage f wd from to st)) <> "".
Proof.
  rewrite buildMessage_shape. cbn [ThreadID].
  destruct (mailReplyTo f =? ""); [apply generateThreadID_nonempty|].
  cbv zeta. destruct (fst (call _ _ st)) as [original|e].
  - destruct (String.eqb_spec (ThreadID original) "") as [E|E];
      [apply generateThreadID_nonempty|exact E].
  - apply generateThreadID_nonempty.
Qed.

(** X5.  What building the message touches: without [--reply-to] nothing but the
    random source; with it the mailbox of the sender, once, for the message
    replied to, and the random source only when no thread id came back. *)
Theorem buildMessage_touches (f : SendFlags) (wd from to : string) (st : St W) :
  let got :=
    fst (Mailbox_Get (NewMailboxFromAddress from wd) (mailReplyTo f) (world st)) in
  trace (snd (buildMessage f wd from to st)) =
    (trace st ++
     if mailReplyTo f =? "" then [EvRandRead 6]
     else EvMailboxGet (addressToIdentity from) (mailReplyTo f) ::
          match got with
          | Ok original =>
              if ThreadID original =? "" then [EvRandRead 6] else []
          | Err _ => [EvRandRead 6]
          end)%list.
Proof.
  unfold buildMessage, GetMailbox, NewMailboxFromAddress, NewRouter, nil_error.
  cbn [fst snd workDir identity]. cbv zeta.
  unfold bind, ret. cbv beta.
  destruct (mailNotify f && _), (mailInterrupt f),
    (ParseMessageType (mailType f) =? TypeNotification) eqn:Et;
    cbn [Priority_ Type_ ThreadID setPriority setType setDelivery setReplyTo
         setThreadID newMessage];
    rewrite ?Et;
    (destruct (String.eqb_spec (mailReplyTo f) "") as [E|E]; cbn [negb andb];
     [ cbn [Priority_ Type_ ThreadID setPriority setType setDelivery
            setReplyTo setThreadID newMessage String.eqb];
       rewrite <- generateThreadID_trace;
       destruct (generateThreadID st); reflexivity
     | unfold call at 1;
       destruct (Mailbox_Get _ _ (world st)) as [[original|e] w1];
       cbn [fst snd];
       cbn [Priority_ Type_ ThreadID setPriority setType setDelivery
            setReplyTo setThreadID newMessage String.eqb];
       [ destruct (ThreadID original =? ""); [|reflexivity] | ];
       match goal with
       | |- context [generateThreadID ?s] =>
           pose proof (generateThreadID_trace s) as Hg;
           destruct (generateThreadID s); cbn [fst snd trace] in *;
           rewrite Hg; cbn [trace]; now rewrite <- app_assoc
       end ]).
Qed.

(** X6.  Every message [gt mail send] persists carries a thread id: the message
    built has a non-empty one, and [bd] is called with [--thread-id] and that
    id, reply or not, inherited or generated. *)
Theorem runMailSend_always_passes_thread_id (f : SendFlags) (to : string)
    (st : St W) (wd from : string) (st1 st2 st3 : St W) (msg : Message) :
  call EvFindBeadsWorkDir findBeadsWorkDir st = ((wd, nil_error), st1) ->
  call EvDetectSender detectSender st1 = (from, st2) ->
  buildMessage f wd from to st2 = (msg, st3) ->
  ThreadID msg <> "" /\
  exists (pre post : list string) (rest : list Event),
    trace (snd (runMailSend f to st)) =
      (trace st3 ++
       EvExec "bd" (pre ++ ["--thread-id"; ThreadID msg] ++ post)
         ("BEADS_AGENT_NAME=" ++ addressToIdentity (From_ msg)) wd :: rest)%list.
Proof.
  intros Hwd Hfrom Hmsg.
  assert (Hne : ThreadID msg <> "").
  { pose proof (buildMessage_thread_nonempty f wd from to st2) as Hn.
    now rewrite Hmsg in Hn. }
  split; [exact Hne|].
  destruct (runMailSend_persists_built _ _ _ _ _ _ _ _ _ Hwd Hfrom Hmsg)
    as [rest Hrest].
  assert (Hargs : exists pre post : list string,
             sendArgs msg = (pre ++ ["--thread-id"; ThreadID msg] ++ post)%list).
  { unfold sendArgs. apply String.eqb_neq in Hne. rewrite Hne. cbn [negb].
    destruct (negb (ReplyTo msg =? "")).
    - eexists _, ["--reply-to"; ReplyTo msg]. now rewrite <- app_assoc.
    - eexists _, []. reflexivity. }
  destruct Hargs as (pre & post & Hargs). rewrite Hargs in Hrest.
  now exists pre, post, rest.
Qed.

(** X7.  Only [--interrupt] injects: without the flag nothing is ever typed into
    a session, and with it nothing is shown in a status line. *)
Theorem runMailSend_injects_only_on_interrupt (f : SendFlags) (to : string)
    (st : St W) (wd from : string) (st1 st2 st3 : St W) (msg : Message) :
  call EvFindBeadsWorkDir findBeadsWorkDir st = ((wd, nil_error), st1) ->
  call EvDetectSender detectSender st1 = (from, st2) ->
  buildMessage f wd from to st2 = (msg, st3) ->
  exists after : list Event,
    trace (snd (runMailSend f to st)) = (trace st3 ++ after)%list /\
    forall sid text : string,
      (mailInterrupt f = false -> ~ In (EvSendKeysRaw sid text) after) /\
      (mailInterrupt f = true -> ~ In (EvDisplayMessage sid text) after).
Proof.
  intros Hwd Hfrom Hmsg.
  rewrite (runMailSend_unfold _ _ _ _ _ _ _ _ _ Hwd Hfrom Hmsg). cbn [snd].
  assert (Hd : Delivery_ msg =
               if mailInterrupt f then DeliveryInterrupt else DeliveryQueue).
  { pose proof (buildMessage_shape f wd from to st2) as Hs.
    rewrite Hmsg in Hs. cbn [fst] in Hs. now subst msg. }
  rewrite Send_unfold.
  destruct (fst (fst (persist (NewRouter wd) msg st3))); cbn [snd].
  - eexists. split; [apply persist_trace|].
    intros sid text. split; intros _ [Hin|[]]; discriminate.
  - rewrite deliver_trace, persist_trace, <- app_assoc.
    eexists. split; [reflexivity|].
    intros sid text. rewrite Hd.
    destruct (addressToSessionID (To msg) =? "");
      [split; intros _ [Hin|[]]; discriminate|].
    destruct (isSome _ || negb _);
      [split; intros _ [Hin|[Hin|[]]]; discriminate|].
    split; intros -> [Hin|[Hin|[Hin|[]]]]; discriminate.
Qed.

(** X8.  The two ways [runMailSend] fails: without a workspace, before anything
    else is done, with "not in a Gas Town workspace: "; or because [Send]
    failed, with "sending message: ". *)
Theorem runMailSend_error_prefix (f : SendFlags) (to : string) (st : St W) (e : string) :
  fst (runMailSend f to st) = Some e ->
  (HasPrefix e "not in a Gas Town workspace: " = true /\
   snd (fst (findBeadsWorkDir (world st))) <> nil_error /\
   trace (snd (runMailSend f to st)) = (trace st ++ [EvFindBeadsWorkDir])%list) \/
  (HasPrefix e "sending message: " = true /\
   snd (fst (findBeadsWorkDir (world st))) = nil_error).
Proof.
  destruct (call EvFindBeadsWorkDir findBeadsWorkDir st) as [[wd err] st1] eqn:Hwd.
  assert (Hport : snd (fst (findBeadsWorkDir (world st))) = err /\
                  trace st1 = (trace st ++ [EvFindBeadsWorkDir])%list).
  { unfold call in Hwd. destruct (findBeadsWorkDir (world st)) as [[wd' err'] w'].
    injection Hwd as <- <- <-. split; reflexivity. }
  destruct Hport as [Hport Htr]. rewrite Hport.
  destruct err as [cause|].
  - rewrite (runMailSend_no_workspace _ _ _ _ _ _ Hwd). cbn [fst snd].
    intros [= <-]. left.
    split; [exact (HasPrefix_app "not in a Gas Town workspace: " cause)|].
    split; [discriminate|exact Htr].
  - destruct (call EvDetectSender detectSender st1) as [from st2] eqn:Hfrom.
    destruct (buildMessage f wd from to st2) as [msg st3] eqn:Hmsg.
    rewrite (runMailSend_unfold _ _ _ _ _ _ _ _ _ Hwd Hfrom Hmsg). cbn [fst].
    destruct (fst (Send (NewRouter wd) msg st3)) as [cause|]; [|discriminate].
    intros [= <-]. right.
    split; [exact (HasPrefix_app "sending message: " cause)|reflexivity].
Qed.

End SendCommandMore.

(** * Further properties of [gt mail wait] *)
Section WaitCommandMore.
Import mail cmd.
Context {W : Type} `{Ports W} `{Pkg}.

Lemma pollOnce_without_timeout (mailbox : Mailbox) (mailWaitTimeout deadline : Z)
    (st : St W) :
  (mailWaitTimeout <= 0)%Z ->
  fst (pollOnce mailbox mailWaitTimeout deadline st) <> Some 1%Z /\
  exists evs : list Event,
    trace (snd (pollOnce mailbox mailWaitTimeout deadline st)) =
      (trace st ++ evs)%list /\
    ~ In EvNow evs.
Proof.
  intros Ht. assert (Hc := pollOnce_cases mailbox mailWaitTimeout deadline st).
  cbv zeta in Hc.
  assert (Et : (mailWaitTimeout >? 0)%Z = false)
    by (rewrite Z.gtb_ltb; apply Z.ltb_ge; lia).
  rewrite Et in Hc.
  destruct (fst (Mailbox_Count mailbox (world st))) as [[total unread]|e];
    [destruct (unread >? 0)%Z|]; rewrite Hc; cbn [fst snd trace];
    (split; [discriminate|]); eexists; (split; [reflexivity|]);
    intros [Hin|[Hin|[]]]; discriminate.
Qed.

Lemma waitLoop_without_timeout (fuel : nat) (mailbox : Mailbox)
    (mailWaitTimeout deadline : Z) (st : St W) :
  (mailWaitTimeout <= 0)%Z ->
  fst (waitLoop fuel mailbox mailWaitTimeout deadline st) <> Some 1%Z /\
  exists evs : list Event,
    trace (snd (waitLoop fuel mailbox mailWaitTimeout deadline st)) =
      (trace st ++ evs)%list /\
    ~ In EvNow evs.
Proof.
  intros Ht. revert st. induction fuel as [|fuel IH]; intros st;
    cbn [waitLoop]; unfold bind, ret.
  - cbn [fst snd]. split; [discriminate|]. exists [].
    split; [now rewrite app_nil_r|intros []].
  - destruct (pollOnce_without_timeout mailbox mailWaitTimeout deadline st Ht)
      as (Hcode & evs & Htr & Hnow).
    destruct (pollOnce mailbox mailWaitTimeout deadline st) as [[code|] st1];
      cbn [fst snd] in *.
    + split; [exact Hcode|]. now exists evs.
    + destruct (IH st1) as (Hcode' & evs' & Htr' & Hnow').
      split; [exact Hcode'|]. exists (evs ++ evs')%list.
      split; [now rewrite Htr', Htr, <- app_assoc|].
      intros Hin. apply in_app_or in Hin as [Hin|Hin]; contradiction.
Qed.

(** X9.  Without [--timeout] (or with a timeout of 0 or less) [gt mail wait]
    never exits with the code of a timeout and never reads the clock. *)
Theorem runMailWait_without_timeout (mailWaitTimeout : Z) (fuel : nat) (st : St W) :
  (mailWaitTimeout <= 0)%Z ->
  fst (runMailWait mailWaitTimeout fuel st) <> Some (exitCode TimedOut) /\
  exists evs : list Event,
    trace (snd (runMailWait mailWaitTimeout fuel st)) = (trace st ++ evs)%list /\
    ~ In EvNow evs.
Proof.
  intros Ht.
  destruct (call EvFindBeadsWorkDir findBeadsWorkDir st) as [[wd err] st1] eqn:Hwd.
  assert (Htr1 : trace st1 = (trace st ++ [EvFindBeadsWorkDir])%list).
  { unfold call in Hwd. destruct (findBeadsWorkDir (world st)).
    now injection Hwd as _ <-. }
  destruct err as [e|].
  - rewrite (runMailWait_no_workspace _ _ _ _ _ _ Hwd). cbn [fst snd trace].
    split; [discriminate|]. exists [EvFindBeadsWorkDir; EvExit 2].
    split; [now rewrite Htr1, <- app_assoc|].
    intros [Hin|[Hin|[]]]; discriminate.
  - destruct (call EvDetectSender detectSender st1) as [from st2] eqn:Hfrom.
    assert (Htr2 : trace st2 = (trace st1 ++ [EvDetectSender])%list).
    { unfold call in Hfrom. destruct (detectSender (world st1)).
      now injection Hfrom as _ <-. }
    rewrite (runMailWait_unfold _ _ _ _ _ _ _ Hwd Hfrom).
    assert (Et : (mailWaitTimeout >? 0)%Z = false)
      by (rewrite Z.gtb_ltb; apply Z.ltb_ge; lia).
    rewrite Et.
    destruct (waitLoop_without_timeout fuel (NewMailboxFromAddress from wd)
                mailWaitTimeout 0 st2 Ht) as (Hcode & evs & Htr & Hnow).
    split; [exact Hcode|].
    exists ([EvFindBeadsWorkDir; EvDetectSender] ++ evs)%list.
    split.
    + rewrite Htr, Htr2, Htr1, <- !app_assoc. reflexivity.
    + intros [Hin|[Hin|Hin]]; [discriminate..|contradiction].
Qed.

Lemma waitLoop_timed_out (fuel : nat) (mailbox : Mailbox)
    (mailWaitTimeout deadline : Z) (st st'' : St W) :
  waitLoop fuel mailbox mailWaitTimeout deadline st = (Some 1%Z, st'') ->
  exists (k : nat) (st' : St W),
    k < fuel /\
    afterPolls k mailbox mailWaitTimeout deadline st = Some st' /\
    (0 < mailWaitTimeout)%Z /\
    (exists total unread : Z,
       fst (Mailbox_Count mailbox (world st')) = Ok (total, unread) /\
       (unread <= 0)%Z) /\
    (deadline < fst (time_Now (snd (Mailbox_Count mailbox (world st')))))%Z.
Proof.
  intros Hw.
  destruct (waitLoop_exit_inv _ _ _ _ _ _ _ Hw) as (k & st' & Hlt & Hk & Hp).
  exists k, st'. split; [exact Hlt|]. split; [exact Hk|].
  assert (Hc := pollOnce_cases mailbox mailWaitTimeout deadline st').
  cbv zeta in Hc. rewrite Hp in Hc.
  destruct (fst (Mailbox_Count mailbox (world st'))) as [[total unread]|e];
    [|discriminate].
  destruct (unread >? 0)%Z eqn:Eu; [discriminate|].
  destruct (mailWaitTimeout >? 0)%Z eqn:Et; [|discriminate].
  destruct (fst (time_Now _) >? deadline)%Z eqn:En; [|discriminate].
  split; [lia|]. split; [exists total, unread; split; [reflexivity|lia]|lia].
Qed.

(** X10.  A timeout never fires early.  For a timeout of 1 to 9223372036 seconds
    (the product with a second fits 64 bits), when [gt mail wait] exits with
    the code of a timeout, the poll that ended it found no unread mail and
    read a clock value more than the timeout after the value read before the
    first poll. *)
Theorem runMailWait_times_out_late (mailWaitTimeout : Z) (fuel : nat) (st : St W)
    (wd from : string) (st1 st2 : St W) :
  call EvFindBeadsWorkDir findBeadsWorkDir st = ((wd, nil_error), st1) ->
  call EvDetectSender detectSender st1 = (from, st2) ->
  (0 < mailWaitTimeout <= 9223372036)%Z ->
  fst (runMailWait mailWaitTimeout fuel st) = Some (exitCode TimedOut) ->
  let mailbox := NewMailboxFromAddress from wd in
  let started := fst (time_Now (world st2)) in
  let deadline := (started + mailWaitTimeout * Second)%Z in
  exists (k : nat) (st' : St W),
    k < fuel /\
    afterPolls k mailbox mailWaitTimeout deadline
      (mkSt (snd (time_Now (world st2))) (trace st2 ++ [EvNow])) = Some st' /\
    (exists total unread : Z,
       fst (Mailbox_Count mailbox (world st')) = Ok (total, unread) /\
       (unread <= 0)%Z) /\
    (started + mailWaitTimeout * Second <
       fst (time_Now (snd (Mailbox_Count mailbox (world st')))))%Z.
Proof.
  intros Hwd Hfrom Hrange Hexit. cbv zeta.
  rewrite (runMailWait_unfold _ _ _ _ _ _ _ Hwd Hfrom) in Hexit.
  assert (Et : (mailWaitTimeout >? 0)%Z = true)
    by (rewrite Z.gtb_ltb; apply Z.ltb_lt; lia).
  rewrite Et in Hexit.
  assert (Hwrap : wrap64 (mailWaitTimeout * Second) = (mailWaitTimeout * Second)%Z).
  { unfold wrap64, Second.
    rewrite Z.mod_small by lia. lia. }
  rewrite Hwrap in Hexit.
  destruct (waitLoop fuel _ _ _ _) as [code st''] eqn:Hw in Hexit.
  cbn [fst exitCode] in Hexit. subst code.
  destruct (waitLoop_timed_out _ _ _ _ _ _ Hw)
    as (k & st' & Hlt & Hk & _ & Hcount & Hlate).
  now exists k, st'.
Qed.

End WaitCommandMore.


(** * The sender and the working directory *)

(** ** Splitting and paths *)
Section PathFacts.
Import gostrings paths.

Lemma Cut_length (s sep a b : string) :
  Cut s sep = Some (a, b) ->
  String.length s = String.length a + String.length sep + String.length b.
Proof.
  revert a b. induction s as [|c s IH]; intros a b Hc.
  - cbn [Cut] in Hc. destruct (HasPrefix "" sep) eqn:Hp; [|discriminate].
    injection Hc as <- <-. destruct sep; [reflexivity|discriminate].
  - cbn [Cut] in Hc. destruct (HasPrefix (String c s) sep) eqn:Hp.
    + injection Hc as <- <-. apply HasPrefix_inv in Hp as [t Ht].
      rewrite Ht. clear. induction sep as [|d sep IH]; cbn; [reflexivity|].
      f_equal. exact IH.
    + destruct (Cut s sep) as [[a' b']|] eqn:E; [|discriminate].
      injection Hc as <- <-. cbn [String.length]. rewrite (IH _ _ eq_refl). lia.
Qed.

(** The first two pieces of [Split]: the text before the first separator,
    and the text between the first and the second (or all the rest). *)
Lemma Split_first_two (s sep a b : string) :
  Cut s sep = Some (a, b) ->
  2 <= String.length s ->
  exists tail : list string,
    Split s sep =
      a :: match Cut b sep with Some (b1, _) => b1 | None => b end :: tail.
Proof.
  intros Hc Hlen. unfold Split.
  destruct (String.length s) as [|[|n]]; [lia..|].
  cbn [SplitN]. rewrite Hc.
  destruct (Cut b sep) as [[b1 b2]|]; eexists; reflexivity.
Qed.

Lemma Split_slash_first (name rest : string) :
  occurs slash name = false ->
  rest = "" \/ HasPrefix rest "/" = true ->
  nth 0 (Split (name ++ rest) "/") "" = name.
Proof.
  intros Hn [->|Hr].
  - assert (E : name ++ "" = name) by (clear; induction name; cbn; congruence).
    rewrite E. unfold Split.
    destruct (String.length name); [reflexivity|].
    cbn [SplitN]. now rewrite (Cut_slash_none _ Hn).
  - apply HasPrefix_inv in Hr as [r ->]. unfold Split.
    destruct (String.length (name ++ "/" ++ r)) eqn:El.
    + destruct name; discriminate.
    + cbn [SplitN]. now rewrite (Cut_slash_some _ _ Hn).
Qed.

Lemma fields_nonempty (path : string) : fields path <> [].
Proof.
  destruct path as [|c rest]; cbn [fields]; [discriminate|].
  destruct (Ascii.eqb c slash); [discriminate|].
  destruct (fields rest); discriminate.
Qed.

Lemma fields_slash_free (s : string) : occurs slash s = false -> fields s = [s].
Proof.
  induction s as [|c s IH]; intros Ho; [reflexivity|].
  cbn [occurs] in Ho. apply orb_false_iff in Ho as [Hc Hs].
  cbn [fields]. rewrite Hc, (IH Hs). reflexivity.
Qed.

Lemma fields_app_slash (a b : string) :
  fields (a ++ "/" ++ b) = (fields a ++ fields b)%list.
Proof.
  induction a as [|c a IH]; [reflexivity|].
  change (String c a ++ "/" ++ b) with (String c (a ++ "/" ++ b)).
  cbn [fields]. rewrite IH. destruct (Ascii.eqb c slash); [reflexivity|].
  destruct (fields a) eqn:E; [now apply fields_nonempty in E|reflexivity].
Qed.

Lemma stripSlashes_slash_free (s : string) :
  occurs slash s = false -> stripSlashes s = s.
Proof.
  induction s as [|c s IH]; intros Ho; [reflexivity|].
  cbn [occurs] in Ho. apply orb_false_iff in Ho as [Hc Hs].
  cbn [stripSlashes]. rewrite (IH Hs), Hc, andb_false_r. reflexivity.
Qed.

Lemma stripSlashes_app (a b : string) :
  b <> "" -> occurs slash b = false -> stripSlashes (a ++ b) = a ++ b.
Proof.
  intros Hb Ho. induction a as [|c a IH].
  - now apply stripSlashes_slash_free.
  - change (String c a ++ b) with (String c (a ++ b)).
    cbn [stripSlashes]. rewrite IH.
    destruct (a ++ b) eqn:E; [|reflexivity].
    destruct a; [cbn in E; congruence|discriminate].
Qed.

(** The base name of a path that ends in a proper element is that element. *)
Lemma Base_last_element (above name : string) :
  name <> "" -> occurs slash name = false ->
  Base (above ++ "/" ++ name) = name.
Proof.
  intros Hn Ho. unfold Base.
  destruct (String.eqb_spec (above ++ "/" ++ name) "") as [E|_].
  { destruct above; discriminate. }
  assert (Hs : stripSlashes (above ++ "/" ++ name) = above ++ "/" ++ name).
  { rewrite <- append_assoc. rewrite stripSlashes_app by assumption.
    now rewrite append_assoc. }
  rewrite Hs, fields_app_slash, (fields_slash_free _ Ho), last_last.
  now apply String.eqb_neq in Hn as ->.
Qed.

End PathFacts.

(** ** [detectSender] *)
Section DetectSender.
Import gostrings paths host.

Lemma addressBelow_absent (cwd marker : string) :
  Contains cwd marker = false -> addressBelow cwd marker = None.
Proof. intros Hc. unfold addressBelow. now rewrite Hc. Qed.

Lemma from_app (p t : string) : from (String.length p) (p ++ t) = t.
Proof. induction p as [|c p IH]; cbn; [now destruct t|exact IH]. Qed.

Lemma Cut_sound (s sep a b : string) :
  Cut s sep = Some (a, b) -> s = a ++ sep ++ b.
Proof.
  revert a b. induction s as [|c s IH]; intros a b Hc; cbn [Cut] in Hc.
  - destruct (HasPrefix "" sep) eqn:Hp; [|discriminate].
    injection Hc as <- <-. destruct sep; [reflexivity|discriminate].
  - destruct (HasPrefix (String c s) sep) eqn:Hp.
    + injection Hc as <- <-. apply HasPrefix_inv in Hp as [t Ht].
      rewrite Ht, from_app. reflexivity.
    + destruct (Cut s sep) as [[a' b']|] eqn:E; [|discriminate].
      injection Hc as <- <-. now rewrite (IH _ _ eq_refl).
Qed.

(** A text that begins with a slash-free [name] and a slash, cut before some
    later slash, still begins with [name]. *)
Lemma first_element_kept (name r b1 t : string) :
  occurs slash name = false ->
  name ++ "/" ++ r = b1 ++ "/" ++ t ->
  exists r1 : string,
    b1 = name ++ r1 /\ (r1 = "" \/ HasPrefix r1 "/" = true).
Proof.
  revert b1. induction name as [|c name IH]; intros b1 Hn E.
  - exists b1. split; [reflexivity|].
    destruct b1 as [|d b1]; [now left|right].
    cbn in E. injection E as <- _. reflexivity.
  - cbn [occurs] in Hn. apply orb_false_iff in Hn as [Hc Hn].
    destruct b1 as [|d b1]; cbn in E; injection E as Ec E.
    + subst c. discriminate.
    + subst d. destruct (IH b1 Hn E) as (r1 & -> & Hr1).
      now exists r1.
Qed.

Lemma addressBelow_found (cwd m above rigName name rest : string) :
  Cut cwd ("/" ++ m) = Some (above ++ "/" ++ rigName, name ++ rest) ->
  rigName <> "" -> occurs slash rigName = false ->
  occurs slash name = false ->
  rest = "" \/ HasPrefix rest "/" = true ->
  addressBelow cwd ("/" ++ m) = Some (rigName ++ "/" ++ name).
Proof.
  intros Hc Hr Hrs Hn Hrest. unfold addressBelow, Contains.
  rewrite Hc. cbn [isSome].
  assert (Hlen : 2 <= String.length cwd).
  { rewrite (Cut_length _ _ _ _ Hc).
    destruct rigName; [congruence|].
    destruct above; cbn; lia. }
  destruct (Split_first_two _ _ _ _ Hc Hlen) as [tail Hs]. rewrite Hs.
  cbn [List.length Nat.leb nth].
  rewrite (Base_last_element _ _ Hr Hrs).
  destruct (Cut (name ++ rest) ("/" ++ m)) as [[b1 b2]|] eqn:Eb.
  - (* a second marker further down: the piece between the two markers
       begins with the same first element *)
    apply Cut_sound in Eb.
    destruct Hrest as [->|Hrest].
    + assert (E : name ++ "" = name) by (clear; induction name; cbn; congruence).
      rewrite E in Eb. rewrite Eb in Hn.
      rewrite occurs_app in Hn. cbn in Hn. now rewrite orb_true_r in Hn.
    + apply HasPrefix_inv in Hrest as [r ->].
      destruct (first_element_kept name r b1 (m ++ b2) Hn Eb) as (r1 & -> & Hr1).
      now rewrite (Split_slash_first _ _ Hn Hr1).
  - now rewrite (Split_slash_first _ _ Hn Hrest).
Qed.

(** With GT_RIG and GT_POLECAT both set, the sender is [rig/polecat],
    wherever the process runs. *)
Lemma detectSender_environment_wins (h : Host) :
  Getenv h "GT_RIG" <> "" ->
  Getenv h "GT_POLECAT" <> "" ->
  detectSender h = Getenv h "GT_RIG" ++ "/" ++ Getenv h "GT_POLECAT".
Proof.
  intros Hr Hp. unfold detectSender.
  apply String.eqb_neq in Hr, Hp. now rewrite Hr, Hp.
Qed.

(** Without both variables, a working directory that cannot be read, or one
    that is below neither a "polecats" nor a "crew" directory, makes the
    sender the mayor. *)
Lemma detectSender_defaults_to_mayor (h : Host) :
  Getenv h "GT_RIG" = "" \/ Getenv h "GT_POLECAT" = "" ->
  (exists e : string, Getwd h = Err e) \/
  (exists cwd : string,
     Getwd h = Ok cwd /\
     Contains cwd "/polecats/" = false /\
     Contains cwd "/crew/" = false) ->
  detectSender h = "mayor/".
Proof.
  intros Henv Hcwd. unfold detectSender.
  assert (Hboth : negb (Getenv h "GT_RIG" =? "")
                    && negb (Getenv h "GT_POLECAT" =? "") = false).
  { destruct Henv as [-> | ->]; [reflexivity|apply andb_false_r]. }
  rewrite Hboth.
  destruct Hcwd as [[e ->]|(cwd & -> & Hp & Hc)]; [reflexivity|].
  now rewrite (addressBelow_absent _ _ Hp), (addressBelow_absent _ _ Hc).
Qed.

(** X11.  The environment comes first and the mayor last: with GT_RIG and
    GT_POLECAT both set the sender is [rig/polecat] wherever the process
    runs; with one of them missing, a working directory that cannot be read,
    or one below neither a "polecats" nor a "crew" directory, makes the
    sender "mayor/". *)
Theorem detectSender_environment_first_mayor_last (h : Host) :
  (Getenv h "GT_RIG" <> "" ->
   Getenv h "GT_POLECAT" <> "" ->
   detectSender h = Getenv h "GT_RIG" ++ "/" ++ Getenv h "GT_POLECAT") /\
  (Getenv h "GT_RIG" = "" \/ Getenv h "GT_POLECAT" = "" ->
   (exists e : string, Getwd h = Err e) \/
   (exists cwd : string,
      Getwd h = Ok cwd /\
      Contains cwd "/polecats/" = false /\
      Contains cwd "/crew/" = false) ->
   detectSender h = "mayor/").
Proof.
  split; [apply detectSender_environment_wins|apply detectSender_defaults_to_mayor].
Qed.

(** X12.  Without both variables, in a directory whose first "/polecats/" comes
    right after [<above>/<rig>] and is followed by [<name>] (and then
    nothing or a slash), the sender is [<rig>/<name>]; an empty [<name>]
    gives the address [<rig>/]. *)
Theorem detectSender_in_polecat_directory (h : Host)
    (cwd above rigName name rest : string) :
  Getenv h "GT_RIG" = "" \/ Getenv h "GT_POLECAT" = "" ->
  Getwd h = Ok cwd ->
  Cut cwd "/polecats/" = Some (above ++ "/" ++ rigName, name ++ rest) ->
  rigName <> "" -> occurs slash rigName = false ->
  occurs slash name = false ->
  rest = "" \/ HasPrefix rest "/" = true ->
  detectSender h = rigName ++ "/" ++ name.
Proof.
  intros Henv Hwd Hc Hr Hrs Hn Hrest. unfold detectSender.
  assert (Hboth : negb (Getenv h "GT_RIG" =? "")
                    && negb (Getenv h "GT_POLECAT" =? "") = false).
  { destruct Henv as [-> | ->]; [reflexivity|apply andb_false_r]. }
  rewrite Hboth, Hwd.
  assert (Hf := addressBelow_found cwd "polecats/" _ _ _ _ Hc Hr Hrs Hn Hrest).
  change ("/" ++ "polecats/") with "/polecats/" in Hf. now rewrite Hf.
Qed.

(** X13.  The same below a "crew" directory, which counts only when the path has
    no "/polecats/" in it. *)
Theorem detectSender_in_crew_directory (h : Host)
    (cwd above rigName name rest : string) :
  Getenv h "GT_RIG" = "" \/ Getenv h "GT_POLECAT" = "" ->
  Getwd h = Ok cwd ->
  Contains cwd "/polecats/" = false ->
  Cut cwd "/crew/" = Some (above ++ "/" ++ rigName, name ++ rest) ->
  rigName <> "" -> occurs slash rigName = false ->
  occurs slash name = false ->
  rest = "" \/ HasPrefix rest "/" = true ->
  detectSender h = rigName ++ "/" ++ name.
Proof.
  intros Henv Hwd Hp Hc Hr Hrs Hn Hrest. unfold detectSender.
  assert (Hboth : negb (Getenv h "GT_RIG" =? "")
                    && negb (Getenv h "GT_POLECAT" =? "") = false).
  { destruct Henv as [-> | ->]; [reflexivity|apply andb_false_r]. }
  rewrite Hboth, Hwd, (addressBelow_absent _ _ Hp).
  assert (Hf := addressBelow_found cwd "crew/" _ _ _ _ Hc Hr Hrs Hn Hrest).
  change ("/" ++ "crew/") with "/crew/" in Hf. now rewrite Hf.
Qed.

End DetectSender.

(** ** [filepath.Dir] ends at a root *)
Section DirFacts.
Import gostrings paths.

Lemma length_append (a b : string) :
  String.length (a ++ b) = String.length a + String.length b.
Proof. induction a as [|c a IH]; cbn; [reflexivity|now rewrite IH]. Qed.

Lemma weight_cons (e : string) (l : list string) :
  weight (e :: l) = S (String.length e) + weight l.
Proof. reflexivity. Qed.

Lemma weight_app (a b : list string) : weight (a ++ b) = weight a + weight b.
Proof.
  induction a as [|e a IH]; [reflexivity|].
  cbn [List.app]. rewrite !weight_cons, IH. lia.
Qed.

Lemma weight_rev (l : list string) : weight (List.rev l) = weight l.
Proof.
  induction l as [|e l IH]; [reflexivity|].
  cbn [List.rev]. rewrite weight_app, IH, !weight_cons. cbn. lia.
Qed.

Lemma concat_length (l : list string) :
  l <> [] -> S (String.length (String.concat "/" l)) = weight l.
Proof.
  induction l as [|e l IH]; [congruence|]. intros _.
  destruct l as [|e' l].
  - cbn. lia.
  - cbn [String.concat]. rewrite !length_append, weight_cons.
    rewrite <- IH by discriminate. cbn. lia.
Qed.

Lemma weight_fields (path : string) :
  weight (fields path) = S (String.length path).
Proof.
  induction path as [|c rest IH]; [reflexivity|].
  cbn [fields]. destruct (Ascii.eqb c slash).
  - rewrite weight_cons, IH. cbn. lia.
  - destruct (fields rest) as [|first others] eqn:E;
      [now apply fields_nonempty in E|].
    rewrite weight_cons in *. cbn [String.length] in *. lia.
Qed.

Lemma solid_le_weight (l : list string) : solid l <= weight l.
Proof.
  unfold solid. induction l as [|e l IH]; [reflexivity|].
  cbn [List.filter]. destruct (negb (e =? "")); rewrite !weight_cons; lia.
Qed.

Lemma solid_app (a b : list string) : solid (a ++ b) = solid a + solid b.
Proof. unfold solid. now rewrite List.filter_app, weight_app. Qed.

Lemma cleanStep_weight (rooted : bool) (out : list string) (e : string) :
  weight (cleanStep rooted out e) <= weight out + solid [e].
Proof.
  unfold cleanStep, solid. cbn [List.filter].
  destruct (String.eqb_spec e "") as [->|He]; cbn [negb]; [cbn; lia|].
  rewrite weight_cons. change (weight []) with 0.
  destruct (e =? "."); [lia|].
  destruct (String.eqb_spec e "..") as [->|Hd]; [|rewrite weight_cons; lia].
  destruct out as [|top below].
  - destruct rooted; cbn; lia.
  - destruct (top =? ".."); rewrite ?weight_cons; cbn; lia.
Qed.

Lemma clean_fold_weight (rooted : bool) (fs out : list string) :
  weight (fold_left (cleanStep rooted) fs out) <= weight out + solid fs.
Proof.
  revert out. induction fs as [|e fs IH]; intros out; cbn [fold_left].
  - unfold solid. cbn. lia.
  - specialize (IH (cleanStep rooted out e)).
    pose proof (cleanStep_weight rooted out e).
    change (e :: fs) with ([e] ++ fs)%list. rewrite solid_app. lia.
Qed.

Lemma upToLastSlash_none (path : string) :
  occurs slash path = false -> upToLastSlash path = "".
Proof. intros Ho. destruct path; cbn [upToLastSlash]; [reflexivity|now rewrite Ho]. Qed.

Lemma upToLastSlash_some (path : string) :
  occurs slash path = true ->
  exists a : string,
    upToLastSlash path = a ++ "/" /\
    String.length (a ++ "/") <= String.length path.
Proof.
  induction path as [|c rest IH]; intros Ho; [discriminate|].
  cbn [upToLastSlash]. rewrite Ho.
  destruct (occurs slash rest) eqn:Er.
  - destruct (IH eq_refl) as (a & -> & Hl). exists (String c a).
    split; [reflexivity|]. cbn [String.append String.length] in *. lia.
  - cbn [occurs] in Ho. rewrite Er, orb_false_r in Ho.
    apply Ascii.eqb_eq in Ho. subst c.
    rewrite (upToLastSlash_none _ Er). exists "".
    split; [reflexivity|]. cbn. lia.
Qed.

Lemma fields_trailing_slash (a : string) :
  fields (a ++ "/") = (fields a ++ [""])%list.
Proof. exact (fields_app_slash a ""). Qed.

(** Cleaning a path that ends in a slash gives a root or a shorter path. *)
Lemma Clean_shorter (a : string) :
  Clean (a ++ "/") = "." \/ Clean (a ++ "/") = "/" \/
  String.length (Clean (a ++ "/")) < String.length (a ++ "/").
Proof.
  unfold Clean.
  destruct (String.eqb_spec (a ++ "/") "") as [E|_]; [destruct a; discriminate|].
  rewrite fields_trailing_slash, fold_left_app.
  cbn [fold_left cleanStep String.eqb].
  set (rooted := HasPrefix (a ++ "/") "/").
  pose proof (clean_fold_weight rooted (fields a) []) as Hw.
  change (weight []) with 0 in Hw. rewrite Nat.add_0_l in Hw.
  set (out := fold_left (cleanStep rooted) (fields a) []) in *.
  assert (Hlen : String.length (a ++ "/") = S (String.length a)).
  { rewrite length_append. cbn. lia. }
  destruct rooted eqn:Hr.
  - (* rooted: the element before the first slash is empty and not kept *)
    assert (Hs : solid (fields a) <= String.length a).
    { subst rooted. destruct a as [|c a]; [cbn; lia|].
      cbn in Hr. destruct (Ascii.eqb c "/") eqn:Ec; [|discriminate].
      cbn [fields]. unfold slash. rewrite Ec.
      change ("" :: fields a) with ([""] ++ fields a)%list.
      rewrite solid_app. change (solid [""]) with 0.
      pose proof (solid_le_weight (fields a)). rewrite weight_fields in *.
      cbn [String.length]. lia. }
    destruct out as [|top below] eqn:Eo; [right; left; reflexivity|].
    right; right. rewrite length_append. cbn [String.length].
    pose proof (concat_length (List.rev (top :: below))) as Hc.
    rewrite weight_rev in Hc.
    assert (List.rev (top :: below) <> []).
    { cbn. destruct (List.rev below); discriminate. }
    specialize (Hc ltac:(assumption)). lia.
  - destruct (String.eqb_spec (String.concat "/" (List.rev out)) "") as [E|E];
      [now left|].
    right; right.
    destruct out as [|top below] eqn:Eo; [cbn in E; congruence|].
    pose proof (concat_length (List.rev (top :: below))) as Hc.
    rewrite weight_rev in Hc.
    assert (List.rev (top :: below) <> []).
    { cbn. destruct (List.rev below); discriminate. }
    specialize (Hc ltac:(assumption)).
    pose proof (solid_le_weight (fields a)). rewrite weight_fields in *. lia.
Qed.

(** A step to the parent directory either stays put or lowers the rank. *)
Lemma Dir_rank (path : string) : Dir path = path \/ rank (Dir path) < rank path.
Proof.
  unfold Dir.
  assert (Hroot : forall y : string,
             (y = "." \/ y = "/") ->
             (path = "." \/ path = "/" -> y = path) ->
             y = path \/ rank y < rank path).
  { intros y Hy Hp. unfold rank at 2.
    destruct (String.eqb_spec path ".") as [E|E1]; [left; now apply Hp; left|].
    destruct (String.eqb_spec path "/") as [E|E2]; [left; now apply Hp; right|].
    right. destruct Hy as [-> | ->]; cbn; lia. }
  destruct (occurs slash path) eqn:Ho.
  - destruct (upToLastSlash_some _ Ho) as (a & Ha & Hl). rewrite Ha.
    assert (Hslash : path = "/" -> a = "").
    { intros ->. change (upToLastSlash "/") with "/" in Ha.
      destruct a as [|c a]; [reflexivity|].
      cbn [String.append] in Ha. injection Ha as _ Ha.
      destruct a; discriminate. }
    destruct (Clean_shorter a) as [Hc|[Hc|Hc]].
    + rewrite Hc. apply Hroot; [now left|].
      intros [-> | Hp]; [vm_compute in Ho; discriminate|].
      rewrite (Hslash Hp) in Hc. vm_compute in Hc. discriminate.
    + rewrite Hc. apply Hroot; [now right|].
      intros [-> | ->]; [vm_compute in Ho; discriminate|reflexivity].
    + destruct (String.eqb_spec (Clean (a ++ "/")) path) as [E|E]; [now left|].
      right. unfold rank.
      destruct ((path =? ".") || (path =? "/")) eqn:Ep.
      * apply orb_true_iff in Ep as [Ep|Ep]; apply String.eqb_eq in Ep.
        -- subst path. vm_compute in Ho. discriminate.
        -- rewrite (Hslash Ep) in E. subst path. now vm_compute in E.
      * destruct ((Clean (a ++ "/") =? ".") || (Clean (a ++ "/") =? "/")); lia.
  - rewrite (upToLastSlash_none _ Ho). change (Clean "") with ".".
    apply Hroot; [now left|].
    intros [-> | ->]; [reflexivity|vm_compute in Ho; discriminate].
Qed.

End DirFacts.

(** ** [findBeadsWorkDir] *)
Section FindBeadsWorkDir.
Import gostrings paths host.

Lemma ancestor_next (k : nat) (path : string) :
  ancestor k (Dir path) = ancestor (S k) path.
Proof.
  unfold ancestor. induction k as [|k IH]; [reflexivity|].
  change (Dir (Nat.iter k Dir (Dir path)) = Dir (Nat.iter (S k) Dir path)).
  now f_equal.
Qed.

Lemma walkUp_total (h : Host) (fuel : nat) (path : string) :
  rank path < fuel -> exists r : result string, walkUp fuel h path = Some r.
Proof.
  revert path. induction fuel as [|fuel IH]; intros path Hr; [lia|].
  cbn [walkUp]. destruct (negb (isSome (Stat h (Join path ".beads")))).
  - eexists; reflexivity.
  - destruct (String.eqb_spec (Dir path) path) as [E|E]; [eexists; reflexivity|].
    apply IH. destruct (Dir_rank path) as [Hd|Hd]; [contradiction|lia].
Qed.

Lemma walkUp_found (h : Host) (fuel : nat) (path found : string) :
  walkUp fuel h path = Some (Ok found) ->
  exists k : nat,
    found = ancestor k path /\
    Stat h (Join found ".beads") = nil_error /\
    forall j : nat, j < k -> Stat h (Join (ancestor j path) ".beads") <> nil_error.
Proof.
  revert path. induction fuel as [|fuel IH]; intros path Hw; [discriminate|].
  cbn [walkUp] in Hw.
  destruct (Stat h (Join path ".beads")) as [e|] eqn:Es; cbn [isSome negb] in Hw.
  - destruct (Dir path =? path); [discriminate|].
    destruct (IH _ Hw) as (k & -> & Hs & Hmin).
    exists (S k). rewrite ancestor_next in *. split; [reflexivity|].
    split; [exact Hs|]. intros [|j] Hj.
    + cbn. rewrite Es. discriminate.
    + rewrite <- ancestor_next. apply Hmin. lia.
  - injection Hw as <-. exists 0. split; [reflexivity|].
    split; [exact Es|]. intros j Hj. lia.
Qed.

Lemma walkUp_not_found (h : Host) (fuel : nat) (path e : string) :
  walkUp fuel h path = Some (Err e) ->
  e = "no .beads directory found" /\
  forall k : nat, Stat h (Join (ancestor k path) ".beads") <> nil_error.
Proof.
  revert path. induction fuel as [|fuel IH]; intros path Hw; [discriminate|].
  cbn [walkUp] in Hw.
  destruct (Stat h (Join path ".beads")) as [cause|] eqn:Es;
    cbn [isSome negb] in Hw; [|discriminate].
  destruct (String.eqb_spec (Dir path) path) as [E|E].
  - injection Hw as <-. split; [reflexivity|].
    intros k. assert (Hk : ancestor k path = path).
    { unfold ancestor. induction k as [|k IHk]; [reflexivity|].
      change (Dir (Nat.iter k Dir path) = path). now rewrite IHk. }
    rewrite Hk, Es. discriminate.
  - destruct (IH _ Hw) as [-> Hall]. split; [reflexivity|].
    intros [|k].
    + cbn. rewrite Es. discriminate.
    + rewrite <- ancestor_next. apply Hall.
Qed.

(** X14.  [findBeadsWorkDir] always comes back (the walk up ends at a root), and a
    directory it returns holds a [.beads] entry. *)
Theorem findBeadsWorkDir_returns_a_beads_directory (h : Host) (fuel : nat) :
  (forall cwd : string, Getwd h = Ok cwd -> enough cwd <= fuel) ->
  exists r : result string,
    findBeadsWorkDir fuel h = Some r /\
    forall dir : string,
      r = Ok dir -> Stat h (Join dir ".beads") = nil_error.
Proof.
  intros Hfuel. unfold findBeadsWorkDir.
  destruct (FindFromCwdOrError h) as [townRoot|e] eqn:Et.
  - destruct (Stat h (Join townRoot ".beads")) as [cause|] eqn:Es;
      cbn [isSome negb].
    + destruct (Getwd h) as [cwd|e] eqn:Ew.
      * destruct (walkUp_total h fuel cwd) as [r Hr].
        { specialize (Hfuel cwd eq_refl). unfold enough, rank in *.
          destruct (_ || _); lia. }
        exists r. split; [exact Hr|]. intros dir ->.
        now destruct (walkUp_found _ _ _ _ Hr) as (k & _ & Hs & _).
      * eexists. split; [reflexivity|]. discriminate.
    + eexists. split; [reflexivity|]. now intros dir [= <-].
  - destruct (Getwd h) as [cwd|e'] eqn:Ew.
    + destruct (walkUp_total h fuel cwd) as [r Hr].
      { specialize (Hfuel cwd eq_refl). unfold enough, rank in *.
        destruct (_ || _); lia. }
      exists r. split; [exact Hr|]. intros dir ->.
      now destruct (walkUp_found _ _ _ _ Hr) as (k & _ & Hs & _).
    + eexists. split; [reflexivity|]. discriminate.
Qed.

(** X15.  A town root with a [.beads] entry is the answer, whatever the working
    directory is and whether it can be read at all; without such a town
    root, a working directory that cannot be read is the error returned. *)
Theorem findBeadsWorkDir_prefers_the_town_root (h : Host) (fuel : nat) :
  (forall townRoot : string,
     FindFromCwdOrError h = Ok townRoot ->
     Stat h (Join townRoot ".beads") = nil_error ->
     findBeadsWorkDir fuel h = Some (Ok townRoot)) /\
  (forall e : string,
     (forall townRoot : string,
        FindFromCwdOrError h = Ok townRoot ->
        Stat h (Join townRoot ".beads") <> nil_error) ->
     Getwd h = Err e ->
     findBeadsWorkDir fuel h = Some (Err e)).
Proof.
  unfold findBeadsWorkDir, nil_error. split.
  - intros townRoot -> ->. reflexivity.
  - intros e Htown ->.
    destruct (FindFromCwdOrError h) as [townRoot|e']; [|reflexivity].
    specialize (Htown townRoot eq_refl).
    destruct (Stat h (Join townRoot ".beads")); [reflexivity|congruence].
Qed.

(** X16.  Without a usable town root, the answer is the nearest directory at or
    above the working directory that holds a [.beads] entry, and the error
    "no .beads directory found" when there is none all the way up. *)
Theorem findBeadsWorkDir_nearest_ancestor (h : Host) (fuel : nat) (cwd : string) :
  (forall townRoot : string,
     FindFromCwdOrError h = Ok townRoot ->
     Stat h (Join townRoot ".beads") <> nil_error) ->
  Getwd h = Ok cwd ->
  enough cwd <= fuel ->
  (forall k : nat,
     Stat h (Join (ancestor k cwd) ".beads") = nil_error ->
     (forall j : nat, j < k ->
        Stat h (Join (ancestor j cwd) ".beads") <> nil_error) ->
     findBeadsWorkDir fuel h = Some (Ok (ancestor k cwd))) /\
  ((forall k : nat, Stat h (Join (ancestor k cwd) ".beads") <> nil_error) ->
   findBeadsWorkDir fuel h = Some (Err "no .beads directory found")).
Proof.
  intros Htown Hwd Hfuel.
  assert (Hwalk : findBeadsWorkDir fuel h = walkUp fuel h cwd).
  { unfold findBeadsWorkDir. rewrite Hwd.
    destruct (FindFromCwdOrError h) as [townRoot|e]; [|reflexivity].
    specialize (Htown townRoot eq_refl). unfold nil_error in Htown.
    destruct (Stat h (Join townRoot ".beads")); [reflexivity|congruence]. }
  rewrite Hwalk.
  destruct (walkUp_total h fuel cwd) as [r Hr].
  { unfold enough, rank in *. destruct (_ || _); lia. }
  rewrite Hr. split.
  - intros k Hk Hmin. destruct r as [found|e].
    + destruct (walkUp_found _ _ _ _ Hr) as (k' & -> & Hs & Hmin').
      destruct (Nat.lt_trichotomy k k') as [Hlt|[->|Hgt]]; [|reflexivity|].
      * now apply Hmin' in Hlt.
      * now apply Hmin in Hgt.
    + destruct (walkUp_not_found _ _ _ _ Hr) as [_ Hall]. now apply Hall in Hk.
  - intros Hnone. destruct r as [found|e].
    + destruct (walkUp_found _ _ _ _ Hr) as (k' & -> & Hs & _).
      now apply Hnone in Hs.
    + now destruct (walkUp_not_found _ _ _ _ Hr) as [-> _].
Qed.

End FindBeadsWorkDir.


(** * The commands that read the mailbox *)
Section ConsoleFacts.
Import mail console.
Context {W : Type} `{Ports W} `{Pkg} `{Store W} `{Style}.

Lemma liftM_call {A} (ev : Event) (op : W -> A * W) (r : Run W) :
  liftM (call ev op) r =
    (fst (op (inWorld r)), mkRun (snd (op (inWorld r))) (log r ++ [Port ev])).
Proof.
  unfold liftM, call. cbn [world trace].
  destruct (op (inWorld r)); reflexivity.
Qed.

Lemma act_run {A} (a : Action) (op : W -> A * W) (r : Run W) :
  act a op r = (fst (op (inWorld r)), mkRun (snd (op (inWorld r))) (log r ++ [a])).
Proof. unfold act. destruct (op (inWorld r)); reflexivity. Qed.

Lemma forEachFrom_prints {A} (lines : nat -> A -> list string)
    (body : nat -> A -> K W unit) :
  (forall (i : nat) (x : A) (r : Run W),
     body i x r = (tt, mkRun (inWorld r) (log r ++ List.map Print (lines i x)))) ->
  forall (l : list A) (start : nat) (r : Run W),
    forEachFrom start l body r =
      (tt, mkRun (inWorld r)
             (log r ++ List.map Print (linesFrom start l lines))).
Proof.
  intros Hbody l. induction l as [|x l IH]; intros start r.
  - cbn. rewrite app_nil_r. now destruct r.
  - cbn [forEachFrom linesFrom]. unfold bindK. rewrite Hbody, IH.
    cbn [inWorld log]. now rewrite List.map_app, <- app_assoc.
Qed.

Lemma forEach_println (l : list string) (r : Run W) :
  forEach l (fun s => println s) r =
    (tt, mkRun (inWorld r)
           (log r ++ List.map (fun s => Print (s ++ nl)) l)).
Proof.
  unfold forEach.
  rewrite (forEachFrom_prints (fun _ s => [s ++ nl])) by reflexivity.
  do 3 f_equal. generalize 0. induction l as [|s l IH]; intros n; cbn;
    [reflexivity|now rewrite IH].
Qed.

(** X17.  [gt mail check --quiet] always returns nil: it writes nothing, exits
    with no code of its own and asks the store for nothing but the
    count. *)
Theorem runMailCheck_quiet_is_silent (f : CheckFlags) (r : Run W) :
  mailCheckQuiet f = true ->
  fst (runMailCheck f r) = Returned nil_error /\
  exists evs : list Event,
    log (snd (runMailCheck f r)) = (log r ++ List.map Port evs)%list /\
    forall ev : Event,
      In ev evs ->
      ev = EvFindBeadsWorkDir \/ ev = EvDetectSender \/
      exists id : string, ev = EvMailboxCount id.
Proof.
  intros Hq. destruct (runMailCheck f r) as [res r'] eqn:E. cbn [fst snd].
  revert E. unfold runMailCheck. rewrite Hq, orb_true_r.
  unfold bindK at 1. rewrite liftM_call.
  destruct (findBeadsWorkDir (inWorld r)) as [[wd [e|]] w1]; cbn [fst snd].
  - unfold retK. intros [= <- <-]. cbn [log]. split; [reflexivity|].
    exists [EvFindBeadsWorkDir]. split; [reflexivity|].
    intros ev [<-|[]]. now left.
  - unfold bindK at 1. rewrite liftM_call. cbn [inWorld log].
    destruct (detectSender w1) as [address w2]; cbn [fst snd].
    unfold GetMailbox, nil_error. cbn [fst snd].
    unfold bindK at 1. rewrite liftM_call. cbn [inWorld log].
    destruct (Mailbox_Count _ w2) as [[[total unread]|e] w3]; cbn [fst snd];
      unfold retK; intros [= <- <-]; cbn [log]; (split; [reflexivity|]);
      exists [EvFindBeadsWorkDir; EvDetectSender;
              EvMailboxCount (addressToIdentity address)];
      (split; [now rewrite <- !app_assoc|]);
      intros ev [<-|[<-|[<-|[]]]]; eauto.
Qed.

Lemma printed_app (a b : list Action) : printed (a ++ b) = (printed a ++ printed b)%list.
Proof. unfold printed. apply flat_map_app. Qed.

Lemma printed_prints (texts : list string) : printed (List.map Print texts) = texts.
Proof. induction texts as [|t texts IH]; cbn; [reflexivity|now f_equal]. Qed.

Lemma printed_map_print {A} (h : A -> string) (l : list A) :
  printed (List.map (fun x => Print (h x)) l) = List.map h l.
Proof. induction l as [|x l IH]; cbn; [reflexivity|now f_equal]. Qed.

(** X18.  [gt mail check --inject] (without [--json] or [--quiet]) always returns
    nil.  It prints the reminder block exactly when there is a workspace,
    the count can be read and is positive; the block has one line for each
    message the listing of unread mail gave back. *)
Theorem runMailCheck_inject_reminder (f : CheckFlags) (r : Run W) :
  mailCheckInject f = true ->
  mailCheckJSON f = false ->
  mailCheckQuiet f = false ->
  let found := findBeadsWorkDir (inWorld r) in
  let sender := detectSender (snd found) in
  let mailbox := NewMailboxFromAddress (fst sender) (fst (fst found)) in
  let counted := Mailbox_Count mailbox (snd sender) in
  let listed := Mailbox_ListUnread mailbox (snd counted) in
  fst (runMailCheck f r) = Returned nil_error /\
  printed (log (snd (runMailCheck f r))) =
    (printed (log r) ++
     match snd (fst found), fst counted with
     | None, Ok (_, unread) =>
         if (unread >? 0)%Z then
           ["<system-reminder>" +:+ nl;
            "You have " +:+ Sprintf_d unread
              +:+ " unread message(s) in your inbox." +:+ nl +:+ nl]
           ++ List.map
                (fun msg => "- From " +:+ From_ msg +:+ ": " +:+ Subject msg +:+ nl)
                (fst (fst listed))
           ++ [nl;
               "Run 'gt mail inbox' to see your messages, or 'gt mail read <id>' for a specific message." +:+ nl;
               "</system-reminder>" +:+ nl]
         else []
     | _, _ => []
     end)%list.
Proof.
  intros Hi Hj Hq. cbv zeta.
  destruct (runMailCheck f r) as [res r'] eqn:E. cbn [fst snd].
  revert E. unfold runMailCheck. rewrite Hi, Hj, Hq. cbn [orb].
  unfold bindK at 1. rewrite liftM_call.
  destruct (findBeadsWorkDir (inWorld r)) as [[wd [e|]] w1]; cbn [fst snd].
  - unfold retK. intros [= <- <-]. cbn [log]. split; [reflexivity|].
    now rewrite printed_app.
  - unfold bindK at 1. rewrite liftM_call. cbn [inWorld log].
    destruct (detectSender w1) as [address w2]; cbn [fst snd].
    unfold GetMailbox, nil_error, NewRouter. cbn [fst snd workDir].
    unfold bindK at 1. rewrite liftM_call. cbn [inWorld log].
    destruct (Mailbox_Count _ w2) as [[[total unread]|e] w3]; cbn [fst snd].
    + destruct (unread >? 0)%Z.
      * unfold bindK at 1. unfold bindK at 1. rewrite act_run. cbn [inWorld log].
        destruct (Mailbox_ListUnread _ w3) as [[messages lerr] w4]; cbn [fst snd].
        unfold bindK, println, print, retK. rewrite forEach_println.
        cbn [inWorld log]. intros [= <- <-]. cbn [log]. split; [reflexivity|].
        rewrite !printed_app, List.map_map, printed_map_print.
        cbn [printed flat_map List.app]. rewrite <- !app_assoc.
        f_equal. cbn [List.app]. do 2 f_equal. f_equal.
        apply List.map_ext. intros msg. cbn.
        now rewrite !append_assoc.
      * unfold bindK, retK. intros [= <- <-]. cbn [log]. split; [reflexivity|].
        rewrite !printed_app. cbn. now rewrite !app_nil_r.
    + unfold retK. intros [= <- <-]. cbn [log]. split; [reflexivity|].
      rewrite !printed_app. cbn. now rewrite !app_nil_r.
Qed.

(** X19.  Plain [gt mail check] tells by its exit code whether there is unread
    mail: 0 when the unread count is positive, 1 when it is not, each with
    one line of output.  It returns an error instead, and prints nothing,
    when there is no workspace or the count cannot be read. *)
Theorem runMailCheck_exit_code (f : CheckFlags) (r : Run W) :
  mailCheckInject f = false ->
  mailCheckJSON f = false ->
  mailCheckQuiet f = false ->
  let found := findBeadsWorkDir (inWorld r) in
  let sender := detectSender (snd found) in
  let mailbox := NewMailboxFromAddress (fst sender) (fst (fst found)) in
  let counted := Mailbox_Count mailbox (snd sender) in
  fst (runMailCheck f r) =
    match snd (fst found), fst counted with
    | Some e, _ => Returned (Some ("not in a Gas Town workspace: " ++ e))
    | None, Err e => Returned (Some ("counting messages: " ++ e))
    | None, Ok (_, unread) => Exited (if (unread >? 0)%Z then 0 else 1)
    end /\
  printed (log (snd (runMailCheck f r))) =
    (printed (log r) ++
     match snd (fst found), fst counted with
     | None, Ok (_, unread) =>
         if (unread >? 0)%Z
         then [Bold "📬" +:+ " " +:+ Sprintf_d unread
                 +:+ " unread message(s)" +:+ nl]
         else ["No new mail" +:+ nl]
     | _, _ => []
     end)%list.
Proof.
  intros Hi Hj Hq. cbv zeta.
  destruct (runMailCheck f r) as [res r'] eqn:E. cbn [fst snd].
  revert E. unfold runMailCheck. rewrite Hi, Hj, Hq. cbn [orb].
  unfold bindK at 1. rewrite liftM_call.
  destruct (findBeadsWorkDir (inWorld r)) as [[wd [e|]] w1]; cbn [fst snd].
  - unfold retK. intros [= <- <-]. cbn [log]. split; [reflexivity|].
    now rewrite printed_app.
  - unfold bindK at 1. rewrite liftM_call. cbn [inWorld log].
    destruct (detectSender w1) as [address w2]; cbn [fst snd].
    unfold GetMailbox, nil_error, NewRouter. cbn [fst snd workDir].
    unfold bindK at 1. rewrite liftM_call. cbn [inWorld log].
    destruct (Mailbox_Count _ w2) as [[[total unread]|e] w3]; cbn [fst snd].
    + destruct (unread >? 0)%Z; unfold bindK, println, print, exit;
        intros [= <- <-]; cbn [log]; (split; [reflexivity|]);
        rewrite !printed_app; cbn [printed flat_map List.app];
        now rewrite <- !app_assoc.
    + unfold retK. intros [= <- <-]. cbn [log]. split; [reflexivity|].
      rewrite !printed_app. cbn. now rewrite !app_nil_r.
Qed.

(** X20.  With [--json] and without [--quiet], a count that can be read is
    written as JSON and nothing else is printed, [--inject] or not; the
    command returns what the encoder returns and never exits by itself. *)
Theorem runMailCheck_json_takes_precedence (f : CheckFlags) (r : Run W)
    (total unread : Z) :
  mailCheckJSON f = true ->
  mailCheckQuiet f = false ->
  let found := findBeadsWorkDir (inWorld r) in
  let sender := detectSender (snd found) in
  let mailbox := NewMailboxFromAddress (fst sender) (fst (fst found)) in
  let counted := Mailbox_Count mailbox (snd sender) in
  snd (fst found) = nil_error ->
  fst counted = Ok (total, unread) ->
  let result := JCheck (fst sender) unread (unread >? 0)%Z in
  fst (runMailCheck f r) = Returned (fst (json_Encode result (snd counted))) /\
  log (snd (runMailCheck f r)) =
    (log r ++
     [Port EvFindBeadsWorkDir; Port EvDetectSender;
      Port (EvMailboxCount (identity mailbox)); Encode result])%list.
Proof.
  intros Hj Hq. cbv zeta. intros Hfound Hcount.
  destruct (runMailCheck f r) as [res r'] eqn:E. cbn [fst snd].
  revert E. unfold runMailCheck. rewrite Hj, Hq.
  unfold bindK at 1. rewrite liftM_call.
  destruct (findBeadsWorkDir (inWorld r)) as [[wd err] w1]; cbn [fst snd] in *.
  rewrite Hfound. unfold nil_error.
  unfold bindK at 1. rewrite liftM_call. cbn [inWorld log].
  destruct (detectSender w1) as [address w2]; cbn [fst snd] in *.
  unfold GetMailbox, nil_error, NewRouter. cbn [fst snd workDir].
  unfold bindK at 1. rewrite liftM_call. cbn [inWorld log].
  destruct (Mailbox_Count _ w2) as [counted w3]; cbn [fst snd] in *.
  rewrite Hcount. unfold bindK. rewrite act_run. cbn [inWorld log fst snd].
  unfold retK. intros [= <- <-]. cbn [log]. split; [reflexivity|].
  now rewrite <- !app_assoc.
Qed.

(** ** [gt mail read] and [gt mail delete] *)

(** X21.  [gt mail read] marks the message read only after it has fetched it, and
    whether the marking succeeds does not matter: a message that cannot be
    fetched is not marked and the command fails with "getting message: ";
    a fetched message is marked once, right after the fetch, and the command
    then returns nil (or, with [--json], what the encoder of the fetched
    message returns). *)
Theorem runMailRead_marks_after_get (mailReadJSON : bool) (msgID : string) (r : Run W) :
  let found := findBeadsWorkDir (inWorld r) in
  let sender := detectSender (snd found) in
  let mailbox := NewMailboxFromAddress (fst sender) (fst (fst found)) in
  let got := Mailbox_Get mailbox msgID (snd sender) in
  let marked := Mailbox_MarkRead mailbox msgID (snd got) in
  snd (fst found) = nil_error ->
  match fst got with
  | Err e =>
      runMailRead mailReadJSON msgID r =
        (Some ("getting message: " ++ e),
         mkRun (snd got)
           (log r ++
            [Port EvFindBeadsWorkDir; Port EvDetectSender;
             Port (EvMailboxGet (identity mailbox) msgID)]))
  | Ok msg =>
      exists output : list Action,
        log (snd (runMailRead mailReadJSON msgID r)) =
          (log r ++
           [Port EvFindBeadsWorkDir; Port EvDetectSender;
            Port (EvMailboxGet (identity mailbox) msgID);
            CallMarkRead (identity mailbox) msgID] ++ output)%list /\
        forallb isOutput output = true /\
        (mailReadJSON = true ->
         output = [Encode (JMessage msg)] /\
         fst (runMailRead mailReadJSON msgID r) =
           fst (json_Encode (JMessage msg) (snd marked))) /\
        (mailReadJSON = false ->
         fst (runMailRead mailReadJSON msgID r) = nil_error /\
         5 <= List.length output <= 8)
  end.
Proof.
  cbv zeta. intros Hfound.
  destruct (runMailRead mailReadJSON msgID r) as [res r'] eqn:E.
  cbn [fst snd]. revert E. unfold runMailRead.
  unfold bindK at 1. rewrite liftM_call.
  destruct (findBeadsWorkDir (inWorld r)) as [[wd err] w1]; cbn [fst snd] in *.
  rewrite Hfound. unfold nil_error.
  unfold bindK at 1. rewrite liftM_call. cbn [inWorld log].
  destruct (detectSender w1) as [address w2]; cbn [fst snd] in *.
  unfold GetMailbox, nil_error, NewRouter. cbn [fst snd workDir].
  unfold bindK at 1. rewrite liftM_call. cbn [inWorld log].
  destruct (Mailbox_Get _ msgID w2) as [[msg|e] w3]; cbn [fst snd].
  - unfold bindK at 1. rewrite act_run. cbn [inWorld log fst snd].
    destruct (Mailbox_MarkRead _ msgID w3) as [merr w4]; cbn [fst snd].
    destruct mailReadJSON.
    + rewrite act_run. cbn [inWorld log fst snd]. intros [= <- <-]. cbn [log].
      exists [Encode (JMessage msg)].
      split; [now rewrite <- !app_assoc|]. split; [reflexivity|].
      split; [now split|discriminate].
    + unfold bindK, print, retK. cbn [inWorld log].
      destruct (negb (ThreadID msg =? "")), (negb (ReplyTo msg =? "")),
        (negb (Body msg =? "")); cbn [inWorld log];
        intros [= <- <-]; cbn [log];
        (eexists; split; [rewrite <- !app_assoc; cbn [List.app]; reflexivity|]);
        (split; [reflexivity|]);
        (split; [discriminate|intros _; split; [reflexivity|cbn; lia]]).
  - unfold retK. intros [= <- <-]. now rewrite <- !app_assoc.
Qed.

(** X22.  [gt mail delete] confirms only what the store has deleted: when the
    store refuses, the command fails with "deleting message: " and prints
    nothing; otherwise it prints one line and returns nil.  It makes no
    other call to the store. *)
Theorem runMailDelete_confirms_only_success (msgID : string) (r : Run W) :
  let found := findBeadsWorkDir (inWorld r) in
  let sender := detectSender (snd found) in
  let mailbox := NewMailboxFromAddress (fst sender) (fst (fst found)) in
  let deleted := Mailbox_Delete mailbox msgID (snd sender) in
  snd (fst found) = nil_error ->
  runMailDelete msgID r =
    (match fst deleted with
     | Some e => Some ("deleting message: " ++ e)
     | None => nil_error
     end,
     mkRun (snd deleted)
       (log r ++
        [Port EvFindBeadsWorkDir; Port EvDetectSender;
         CallDelete (identity mailbox) msgID] ++
        match fst deleted with
        | Some _ => []
        | None => [Print (Bold "✓" +:+ " Message deleted" +:+ nl)]
        end)).
Proof.
  cbv zeta. intros Hfound. unfold runMailDelete.
  unfold bindK at 1. rewrite liftM_call.
  destruct (findBeadsWorkDir (inWorld r)) as [[wd err] w1]; cbn [fst snd] in *.
  rewrite Hfound. unfold nil_error.
  unfold bindK at 1. rewrite liftM_call. cbn [inWorld log].
  destruct (detectSender w1) as [address w2]; cbn [fst snd] in *.
  unfold GetMailbox, nil_error, NewRouter. cbn [fst snd workDir].
  unfold bindK at 1. rewrite act_run. cbn [inWorld log].
  destruct (Mailbox_Delete _ msgID w2) as [[e|] w3]; cbn [fst snd].
  - unfold retK. now rewrite <- !app_assoc.
  - unfold bindK, print, retK. cbn [inWorld log].
    now rewrite <- !app_assoc.
Qed.

(** ** [gt mail inbox] and [gt mail thread] *)







End ConsoleFacts.

(** * The further properties on concrete runs *)
Section FurtherExamples.
Import gostrings mail cmd console.

(** The store rejects the note: the error of [Send] is what [bd] wrote. *)
Lemma Send_error_text_witness :
  fst (Send (NewRouter "/town") script.note (script.start script.rejecting)) =
    Some "Error: database is locked" /\
  "Error: database is locked" <> "".
Proof.
  split; [reflexivity|].
  exact (proj1 (Send_error_text (NewRouter "/town") script.note
                  (script.start script.rejecting)
                  "Error: database is locked" eq_refl)).
Defined.

(** A broadcast to the rig gastown. *)
Lemma Send_broadcast_calls_no_session_port_witness :
  let msg := setThreadID (newMessage "mayor/" "gastown/" "All hands" "Swarm starting")
               "thread-0123456789ab" in
  HasPrefix (To msg) "mayor" = false /\
  trace (snd (Send (NewRouter "/town") msg (script.start (script.healthy [])))) =
    [EvExec "bd"
       ["mail"; "send"; "gastown/"; "-s"; "All hands"; "-m"; "Swarm starting";
        "--priority"; "2"; "--thread-id"; "thread-0123456789ab"]
       "BEADS_AGENT_NAME=mayor/" "/town"].
Proof.
  cbv zeta. split; [reflexivity|].
  refine (proj1 (Send_broadcast_calls_no_session_port (NewRouter "/town")
                   (setThreadID (newMessage "mayor/" "gastown/" "All hands"
                                   "Swarm starting") "thread-0123456789ab")
                   (script.start (script.healthy [])) eq_refl _)).
  right. exists "gastown". split; reflexivity.
Defined.

(** The display fails in the flaky world: that error, and no other, comes
    back from [notifyRecipient]. *)
Lemma recipient_error_only_from_the_session_call_witness :
  fst (notifyRecipient (NewRouter "/town") script.note
         (script.start script.flaky)) = Some "no server running".
Proof.
  apply (proj1 (recipient_error_only_from_the_session_call (NewRouter "/town")
                  script.note (script.start script.flaky) "no server running")).
  split; [discriminate|]. split; reflexivity.
Defined.

(** A note without a type and the same note with the type notification go
    to [bd] with the same arguments. *)
Lemma sendArgs_determine_the_message_witness :
  sendArgs (setType script.note "") = sendArgs script.note /\
  Subject (setType script.note "") = Subject script.note.
Proof.
  split; [reflexivity|].
  exact (proj1 (proj2 (sendArgs_determine_the_message
                         (setType script.note "") script.note eq_refl))).
Defined.

Lemma runMailSend_always_passes_thread_id_witness :
  let f := mkSendFlags "Status check" "How is it going?" "normal"
             "notification" "" false false in
  let st := script.start (script.healthy []) in
  let st1 := snd (call EvFindBeadsWorkDir findBeadsWorkDir st) in
  let st2 := snd (call EvDetectSender detectSender st1) in
  ThreadID (fst (buildMessage f "/town" "mayor/" "gastown/Toast" st2)) <> "".
Proof.
  cbv zeta.
  exact (proj1 (runMailSend_always_passes_thread_id
                  (mkSendFlags "Status check" "How is it going?" "normal"
                     "notification" "" false false)
                  "gastown/Toast" (script.start (script.healthy []))
                  "/town" "mayor/" _ _ _ _ eq_refl eq_refl eq_refl)).
Defined.

Lemma runMailSend_injects_only_on_interrupt_witness :
  let f := mkSendFlags "Status check" "How is it going?" "normal"
             "notification" "" false false in
  exists after : list Event,
    trace (snd (runMailSend f "gastown/Toast" (script.start (script.healthy [])))) =
      ([EvFindBeadsWorkDir; EvDetectSender; EvRandRead 6] ++ after)%list /\
    forall sid text : string,
      (mailInterrupt f = false -> ~ In (EvSendKeysRaw sid text) after) /\
      (mailInterrupt f = true -> ~ In (EvDisplayMessage sid text) after).
Proof.
  cbv zeta.
  exact (runMailSend_injects_only_on_interrupt
           (mkSendFlags "Status check" "How is it going?" "normal"
              "notification" "" false false)
           "gastown/Toast" (script.start (script.healthy []))
           "/town" "mayor/" _ _ _ _ eq_refl eq_refl eq_refl).
Defined.

Lemma runMailSend_error_prefix_witness :
  let f := mkSendFlags "Status check" "How is it going?" "normal"
             "notification" "" false false in
  fst (runMailSend f "gastown/Toast" (script.start script.rejecting)) =
    Some "sending message: Error: database is locked" /\
  HasPrefix "sending message: Error: database is locked" "sending message: " = true.
Proof.
  cbv zeta.
  assert (Hrun : fst (runMailSend
                        (mkSendFlags "Status check" "How is it going?" "normal"
                           "notification" "" false false)
                        "gastown/Toast" (script.start script.rejecting)) =
                 Some "sending message: Error: database is locked")
    by reflexivity.
  split; [exact Hrun|].
  destruct (runMailSend_error_prefix
              (mkSendFlags "Status check" "How is it going?" "normal"
                 "notification" "" false false)
              "gastown/Toast" (script.start script.rejecting)
              "sending message: Error: database is locked" Hrun)
    as [(_ & Hno & _)|(Hp & _)]; [|exact Hp].
  exfalso. apply Hno. reflexivity.
Defined.

Lemma runMailWait_without_timeout_witness :
  fst (runMailWait 0 3 (script.start script.arriving)) <> Some (exitCode TimedOut).
Proof.
  refine (proj1 (runMailWait_without_timeout 0 3 (script.start script.arriving) _)).
  lia.
Defined.

(** [gt mail wait --timeout 10] on an empty mailbox, the clock starting at
    0: the poll that times out read the clock after 10 seconds. *)
Lemma runMailWait_times_out_late_witness :
  fst (runMailWait 10 5 (script.start (script.healthy []))) =
    Some (exitCode TimedOut) /\
  exists (k : nat) (st' : St script.World),
    k < 5 /\
    (0 + 10 * Second <
       fst (time_Now (snd (Mailbox_Count (NewMailboxFromAddress "mayor/" "/town")
                             (world st')))))%Z.
Proof.
  assert (Hexit : fst (runMailWait 10 5 (script.start (script.healthy []))) =
                  Some (exitCode TimedOut)) by reflexivity.
  split; [exact Hexit|].
  assert (Hwd : call EvFindBeadsWorkDir findBeadsWorkDir
                  (script.start (script.healthy [])) =
                (("/town", nil_error),
                 snd (call EvFindBeadsWorkDir findBeadsWorkDir
                        (script.start (script.healthy []))))) by reflexivity.
  assert (Hfrom : call EvDetectSender detectSender
                    (snd (call EvFindBeadsWorkDir findBeadsWorkDir
                            (script.start (script.healthy [])))) =
                  ("mayor/",
                   snd (call EvDetectSender detectSender
                          (snd (call EvFindBeadsWorkDir findBeadsWorkDir
                                  (script.start (script.healthy []))))))) by reflexivity.
  destruct (runMailWait_times_out_late 10 5 _ _ _ _ _ Hwd Hfrom ltac:(lia) Hexit)
    as (k & st' & Hk & _ & _ & Hlate).
  exists k, st'. split; [exact Hk|exact Hlate].
Defined.

Lemma runMailCheck_quiet_is_silent_witness :
  fst (runMailCheck (mkCheckFlags false false true) (demo.begin demo.nowhere)) =
    Returned nil_error /\
  fst (runMailCheck (mkCheckFlags false false true) (demo.begin demo.oneUnread)) =
    Returned nil_error.
Proof.
  split.
  - exact (proj1 (runMailCheck_quiet_is_silent (mkCheckFlags false false true)
                    (demo.begin demo.nowhere) eq_refl)).
  - exact (proj1 (runMailCheck_quiet_is_silent (mkCheckFlags false false true)
                    (demo.begin demo.oneUnread) eq_refl)).
Defined.

Lemma runMailCheck_inject_reminder_witness :
  printed (log (snd (runMailCheck (mkCheckFlags true false false)
                       (demo.begin demo.oneUnread)))) =
    ["<system-reminder>" +:+ nl;
     "You have 1 unread message(s) in your inbox." +:+ nl +:+ nl;
     "- From gastown/Toast: Status" +:+ nl;
     nl;
     "Run 'gt mail inbox' to see your messages, or 'gt mail read <id>' for a specific message." +:+ nl;
     "</system-reminder>" +:+ nl] /\
  printed (log (snd (runMailCheck (mkCheckFlags true false false)
                       (demo.begin demo.nowhere)))) = [].
Proof.
  split.
  - exact (proj2 (runMailCheck_inject_reminder (mkCheckFlags true false false)
                    (demo.begin demo.oneUnread) eq_refl eq_refl eq_refl)).
  - exact (proj2 (runMailCheck_inject_reminder (mkCheckFlags true false false)
                    (demo.begin demo.nowhere) eq_refl eq_refl eq_refl)).
Defined.

Lemma runMailCheck_exit_code_witness :
  fst (runMailCheck (mkCheckFlags false false false) (demo.begin demo.oneUnread)) =
    Exited 0 /\
  fst (runMailCheck (mkCheckFlags false false false)
         (demo.begin (script.healthy []))) = Exited 1.
Proof.
  split.
  - exact (proj1 (runMailCheck_exit_code (mkCheckFlags false false false)
                    (demo.begin demo.oneUnread) eq_refl eq_refl eq_refl)).
  - exact (proj1 (runMailCheck_exit_code (mkCheckFlags false false false)
                    (demo.begin (script.healthy [])) eq_refl eq_refl eq_refl)).
Defined.

Lemma runMailCheck_json_takes_precedence_witness :
  log (snd (runMailCheck (mkCheckFlags true true false)
              (demo.begin demo.oneUnread))) =
    [Port EvFindBeadsWorkDir; Port EvDetectSender;
     Port (EvMailboxCount "mayor/"); Encode (JCheck "mayor/" 1 true)].
Proof.
  assert (Hfound : snd (fst (findBeadsWorkDir (inWorld (demo.begin demo.oneUnread))))
                   = nil_error) by reflexivity.
  assert (Hcount : fst (Mailbox_Count
                          (NewMailboxFromAddress "mayor/" "/town")
                          demo.oneUnread) = Ok (1, 1)%Z) by reflexivity.
  exact (proj2 (runMailCheck_json_takes_precedence (mkCheckFlags true true false)
                  (demo.begin demo.oneUnread) 1 1 eq_refl eq_refl Hfound
                  Hcount)).
Defined.

(** Reading msg-1 marks it; reading a message that is not there marks
    nothing. *)
Lemma runMailRead_marks_after_get_witness :
  runMailRead false "msg-9" (demo.begin demo.oneUnread) =
    (Some "getting message: message not found: msg-9",
     mkRun demo.oneUnread
       [Port EvFindBeadsWorkDir; Port EvDetectSender;
        Port (EvMailboxGet "mayor/" "msg-9")]) /\
  exists output : list Action,
    log (snd (runMailRead false "msg-1" (demo.begin demo.oneUnread))) =
      ([Port EvFindBeadsWorkDir; Port EvDetectSender;
        Port (EvMailboxGet "mayor/" "msg-1");
        CallMarkRead "mayor/" "msg-1"] ++ output)%list.
Proof.
  assert (Hfound : snd (fst (findBeadsWorkDir (inWorld (demo.begin demo.oneUnread))))
                   = nil_error) by reflexivity.
  split.
  - exact (runMailRead_marks_after_get false "msg-9" (demo.begin demo.oneUnread)
             Hfound).
  - destruct (runMailRead_marks_after_get false "msg-1"
                (demo.begin demo.oneUnread) Hfound) as (output & Hlog & _).
    exists output. exact Hlog.
Defined.

Lemma runMailDelete_confirms_only_success_witness :
  fst (runMailDelete "msg-9" (demo.begin demo.oneUnread)) =
    Some "deleting message: message not found: msg-9" /\
  printed (log (snd (runMailDelete "msg-1" (demo.begin demo.oneUnread)))) =
    ["*✓* Message deleted" +:+ nl].
Proof.
  assert (Hfound : snd (fst (findBeadsWorkDir (inWorld (demo.begin demo.oneUnread))))
                   = nil_error) by reflexivity.
  split.
  - exact (f_equal fst (runMailDelete_confirms_only_success "msg-9"
                          (demo.begin demo.oneUnread) Hfound)).
  - exact (f_equal (fun out => printed (log (snd out)))
             (runMailDelete_confirms_only_success "msg-1"
                (demo.begin demo.oneUnread) Hfound)).
Defined.



End FurtherExamples.

Section HostExamples.
Import gostrings paths host.

Lemma detectSender_environment_first_mayor_last_witness :
  detectSender demo.envHost = "gastown/Toast".
Proof.
  apply (proj1 (detectSender_environment_first_mayor_last demo.envHost));
    discriminate.
Defined.

Lemma detectSender_in_polecat_directory_witness :
  detectSender demo.polecatHost = "gastown/Toast".
Proof.
  refine (detectSender_in_polecat_directory demo.polecatHost
            "/town/gastown/polecats/Toast/src" "/town" "gastown" "Toast" "/src"
            _ eq_refl eq_refl _ eq_refl eq_refl _).
  - now left.
  - discriminate.
  - now right.
Defined.

Lemma detectSender_in_crew_directory_witness :
  detectSender demo.crewHost = "gastown/max".
Proof.
  refine (detectSender_in_crew_directory demo.crewHost
            "/town/gastown/crew/max" "/town" "gastown" "max" ""
            _ eq_refl eq_refl eq_refl _ eq_refl eq_refl _).
  - now left.
  - discriminate.
  - now left.
Defined.

Lemma findBeadsWorkDir_returns_a_beads_directory_witness :
  exists r : result string,
    findBeadsWorkDir 34 demo.polecatHost = Some r /\
    forall dir : string,
      r = Ok dir -> Stat demo.polecatHost (Join dir ".beads") = nil_error.
Proof.
  apply findBeadsWorkDir_returns_a_beads_directory.
  intros cwd [= <-]. vm_compute. lia.
Defined.

Lemma findBeadsWorkDir_prefers_the_town_root_witness :
  findBeadsWorkDir 0 demo.envHost = Some (Ok "/town").
Proof.
  apply (proj1 (findBeadsWorkDir_prefers_the_town_root demo.envHost 0));
    reflexivity.
Defined.

(** Four levels up from the source directory of Toast is the town. *)
Lemma findBeadsWorkDir_nearest_ancestor_witness :
  findBeadsWorkDir 34 demo.polecatHost = Some (Ok "/town").
Proof.
  refine (proj1 (findBeadsWorkDir_nearest_ancestor demo.polecatHost 34
                   "/town/gastown/polecats/Toast/src" _ eq_refl _)
            4 eq_refl _).
  - intros townRoot [=].
  - vm_compute. lia.
  - intros [|[|[|[|j]]]] Hj; [discriminate..|lia].
Defined.

End HostExamples.
